(** * Bug provider of the VaRA tool suite: a shallow embedding

    The development follows [varats/provider/bug/bug.py] and
    [varats/provider/bug/bug_provider.py].  Python values are modelled by
    Rocq data, raised exceptions by an error monad, Python [set]s by
    duplicate-free lists whose insertion goes through [__hash__] and
    [__eq__], as the interpreter's does. *)

From Stdlib Require Import Bool Ascii String List ZArith Lia Permutation.
Import ListNotations.
Local Open Scope string_scope.
Local Open Scope list_scope.

Set Implicit Arguments.

(** ** Exceptions and results *)

(** The built-in exceptions that the modelled code can raise. *)
Inductive PyExc : Type :=
| TypeError      (* unhashable type: 'list' *)
| ValueError     (* substring not found *)
| KeyError (key : string)   (* an id that the repository does not hold *)
| GitError       (* the head reference of a repository without commits *)
| AttributeError (name : string). (* a name that a module does not bind *)

(** The outcome of evaluating a Python expression or call. *)
Inductive Exc (A : Type) : Type :=
| Ok (a : A)
| Raise (e : PyExc).

Arguments Ok {A} a.
Arguments Raise {A} e.

Definition bind {A B : Type} (m : Exc A) (k : A -> Exc B) : Exc B :=
  match m with
  | Ok a => k a
  | Raise e => Raise e
  end.

Notation "x <- m ;; k" := (bind m (fun x => k))
  (at level 61, m at next level, right associativity).

Definition returns {A : Type} (m : Exc A) : Prop := exists a, m = Ok a.

Definition raises {A : Type} (m : Exc A) : Prop := exists e, m = Raise e.

(** ** Strings *)

(** A [str] is modelled by its UTF-8 encoding, a [string] of bytes.  The
    characters that the code names (line feed, the letters of its patterns)
    are single bytes, and a byte below 128 never lies inside the encoding of
    another character, so finding and cutting at such a byte is finding and
    cutting at that character. *)

(** The line feed character and the one-character string ['\n']. *)
Definition LF : ascii := "010"%char.
Definition newline : string := String LF EmptyString.

(** Position of the first occurrence of character [c] in [s]. *)
Fixpoint find_char (c : ascii) (s : string) : option nat :=
  match s with
  | EmptyString => None
  | String a s' =>
      if Ascii.eqb a c then Some 0 else option_map S (find_char c s')
  end.

(** [s.index(c)] for a one-character argument: the lowest index of [c], and
    [ValueError] when [c] does not occur. *)
Definition str_index (s : string) (c : ascii) : Exc nat :=
  match find_char c s with
  | Some i => Ok i
  | None => Raise ValueError
  end.

(** The slice [s[0:stop]]. *)
Definition slice_to (stop : nat) (s : string) : string := substring 0 stop s.

(** Truth value of a [str]: the empty string is falsy. *)
Definition str_truthy (s : string) : bool :=
  match s with
  | EmptyString => false
  | String _ _ => true
  end.

(** Truth value of an [Optional[str]]. *)
Definition opt_str_truthy (o : option string) : bool :=
  match o with
  | None => false
  | Some s => str_truthy s
  end.

(** *** The regular expression [r'fix|fixed|fixes'] with [re.IGNORECASE] *)

(** A literal at the start of the subject, case respected; the result is
    what remains of the subject. *)
Fixpoint strip_literal (lit s : string) : option string :=
  match lit, s with
  | EmptyString, _ => Some s
  | String _ _, EmptyString => None
  | String p lit', String a s' =>
      if Ascii.eqb p a then strip_literal lit' s' else None
  end.

(** The string of the bytes with the given codes. *)
Definition utf8 (codes : list nat) : string :=
  string_of_list_ascii (map ascii_of_nat codes).

(** The characters that a literal character [p] of the ASCII range matches
    under [re.IGNORECASE], each in its encoding.  A letter matches its
    lower-case and its upper-case form; beyond these, [i] also matches
    U+0130 (capital I with dot) and U+0131 (dotless i), [s] matches U+017F
    (long s) and [k] matches U+212A (the Kelvin sign), the characters
    of Unicode that share their case folding.  Any other character matches
    itself only. *)
Definition ignorecase_class (p : ascii) : list string :=
  let n := nat_of_ascii p in
  let lo := if (65 <=? n)%nat && (n <=? 90)%nat then n + 32 else n in
  if (97 <=? lo)%nat && (lo <=? 122)%nat then
    [utf8 [lo]; utf8 [lo - 32]]
      ++ (if (lo =? 105)%nat then [utf8 [196; 176]; utf8 [196; 177]]
          else if (lo =? 115)%nat then [utf8 [197; 191]]
          else if (lo =? 107)%nat then [utf8 [226; 132; 170]]
          else [])
  else [String p EmptyString].

(** One of several texts at the start of the subject: the first that is
    there is taken off. *)
Fixpoint strip_any (variants : list string) (s : string) : option string :=
  match variants with
  | [] => None
  | v :: variants' =>
      match strip_literal v s with
      | Some r => Some r
      | None => strip_any variants' s
      end
  end.

(** A literal of the pattern matches at the start of the subject, case
    being ignored; the result is what remains of the subject. *)
Fixpoint match_literal (lit s : string) : option string :=
  match lit with
  | EmptyString => Some s
  | String p lit' =>
      match strip_any (ignorecase_class p) s with
      | Some s' => match_literal lit' s'
      | None => None
      end
  end.

(** An alternation [a1|a2|...] of literals tried in order at one position:
    the first alternative that matches wins. The result is the length of
    what it matched, in bytes of the encoding. *)
Fixpoint match_alternation (alts : list string) (s : string) : option nat :=
  match alts with
  | [] => None
  | lit :: alts' =>
      match match_literal lit s with
      | Some rest => Some (String.length s - String.length rest)
      | None => match_alternation alts' s
      end
  end.

(** [re.search]: the leftmost position at which the pattern matches, with
    the span of the match, or [None].  Positions count bytes of the
    encoding; the detector only asks whether there is a match. *)
Fixpoint re_search_from (alts : list string) (pos : nat) (s : string)
  : option (nat * nat) :=
  match match_alternation alts s with
  | Some n => Some (pos, pos + n)
  | None =>
      match s with
      | EmptyString => None
      | String _ s' => re_search_from alts (S pos) s'
      end
  end.

Definition re_search (alts : list string) (s : string) : option (nat * nat) :=
  re_search_from alts 0 s.

(** The pattern of [_is_closing_message]. *)
Definition closing_pattern : list string := ["fix"; "fixed"; "fixes"].

(** ** Repository and issue tracker data *)

(** A [pygit2.Commit]: its id in hex and its message. *)
Record Commit : Type := mkCommit {
  hex : string;
  message : string
}.

(** [==] on commits: commit identity is the object id. *)
Definition commit_eqb (c1 c2 : Commit) : bool := String.eqb (hex c1) (hex c2).

(** A [pygit2.Repository] as far as the bug module uses it: the target
    of its head reference, which a repository without commits does not
    have; the commits that [walk] yields from a starting id, newest first;
    and the object that an id or revision resolves to, if any. *)
Record Repository : Type := mkRepository {
  head_target : option string;
  walk : string -> list Commit;
  lookup : string -> option Commit
}.

(** [repo.head.target]: reading the head of a repository without commits
    raises [GitError]. *)
Definition repo_head_target (repo : Repository) : Exc string :=
  match head_target repo with
  | Some target => Ok target
  | None => Raise GitError
  end.

(** [repo[oid]]: the object with that id, and [KeyError] when there is
    none. *)
Definition repo_getitem (repo : Repository) (oid : string) : Exc Commit :=
  match lookup repo oid with
  | Some c => Ok c
  | None => Raise (KeyError oid)
  end.

Definition revparse_single (repo : Repository) (rev : string) : Exc Commit :=
  match lookup repo rev with
  | Some c => Ok c
  | None => Raise (KeyError rev)
  end.

Record Label : Type := mkLabel { name : string }.

Record Issue : Type := mkIssue {
  number : Z;
  labels : list Label
}.

(** A [github.IssueEvent]. *)
Record IssueEvent : Type := mkIssueEvent {
  event : string;
  commit_id : option string;
  issue : Issue
}.

(** What the collaborators outside the module answer for a project name:
    the cached issue events and the local git repository. *)
Record World : Type := mkWorld {
  _get_all_issue_events : string -> list IssueEvent;
  get_local_project_git : string -> Repository
}.

(** ** Hashing *)

(** The hash functions of the interpreter and of pygit2 for the hashable
    values the module handles.  CPython salts [str] hashes per process, so
    they are left open; nothing below depends on their values. *)
Record Hasher : Type := mkHasher {
  hash_str : string -> Z;
  hash_int : Z -> Z;
  hash_none : Z;
  hash_commit : Commit -> Z;
  hash_tuple : list Z -> Z
}.

(** The values that occur as components of the tuple a bug hashes. *)
#[warnings="-register-all"]
Inductive PyVal : Type :=
| VNone
| VInt (z : Z)
| VStr (s : string)
| VCommit (c : Commit)
| VList (items : list PyVal)
| VTuple (items : list PyVal).

(** The built-in [hash]: a [list] is unhashable, a [tuple] hashes its items
    in order and fails as soon as one of them does. *)
Fixpoint py_hash (H : Hasher) (v : PyVal) : Exc Z :=
  match v with
  | VNone => Ok (hash_none H)
  | VInt z => Ok (hash_int H z)
  | VStr s => Ok (hash_str H s)
  | VCommit c => Ok (hash_commit H c)
  | VList _ => Raise TypeError
  | VTuple items =>
      hs <- (fix hash_items (l : list PyVal) : Exc (list Z) :=
               match l with
               | [] => Ok []
               | x :: l' =>
                   h <- py_hash H x ;;
                   hs <- hash_items l' ;;
                   Ok (h :: hs)
               end) items ;;
      Ok (hash_tuple H hs)
  end.

(** An [Optional[int]] as a value. *)
Definition val_of_opt_int (o : option Z) : PyVal :=
  match o with
  | None => VNone
  | Some z => VInt z
  end.

(** [==] on lists: same length and pairwise equal items, in order. *)
Fixpoint list_eqb {A : Type} (eqb : A -> A -> bool) (l1 l2 : list A) : bool :=
  match l1, l2 with
  | [], [] => true
  | x :: l1', y :: l2' => eqb x y && list_eqb eqb l1' l2'
  | _, _ => false
  end.

(** [==] on [Optional[int]]. *)
Definition opt_int_eqb (o1 o2 : option Z) : bool :=
  match o1, o2 with
  | None, None => true
  | Some a, Some b => Z.eqb a b
  | _, _ => false
  end.

(** ** The bug classes *)

Module PygitBug.

  (** Bug representation using the [pygit2.Commit] class. *)
Record t : Type := mk {
    fixing_commit : Commit;
    introducing_commits : list Commit;
    issue_id : option Z
  }.

  (** [__eq__] between two instances of the class, for which
      [type(self) is type(other)] holds. *)
Definition __eq__ (self other : t) : bool :=
    commit_eqb (fixing_commit self) (fixing_commit other)
    && list_eqb commit_eqb (introducing_commits self) (introducing_commits other)
    && opt_int_eqb (issue_id self) (issue_id other).

Definition __hash__ (H : Hasher) (self : t) : Exc Z :=
    py_hash H
      (VTuple [VCommit (fixing_commit self);
               VList (map VCommit (introducing_commits self));
               val_of_opt_int (issue_id self)]).

End PygitBug.

Module RawBug.

  (** Bug representation using the commit hashes as strings. *)
Record t : Type := mk {
    fixing_commit : string;
    introducing_commits : list string;
    issue_id : option Z
  }.

  (** [__eq__] between two instances of the class, for which
      [type(self) is type(other)] holds. *)
Definition __eq__ (self other : t) : bool :=
    String.eqb (fixing_commit self) (fixing_commit other)
    && list_eqb String.eqb (introducing_commits self) (introducing_commits other)
    && opt_int_eqb (issue_id self) (issue_id other).

Definition __hash__ (H : Hasher) (self : t) : Exc Z :=
    py_hash H
      (VTuple [VStr (fixing_commit self);
               VList (map VStr (introducing_commits self));
               val_of_opt_int (issue_id self)]).

End RawBug.

(** ** Sets *)

Section PySet.

Variable A : Type.
Variable eqb : A -> A -> bool.
Variable hash : A -> Exc Z.

  (** A [set]: its elements, each stored with its hash, in insertion
      order and without duplicates. *)
Definition pyset : Type := list (Z * A).

  (** The probe of the hash table: an entry with the same hash and an
      equal key. *)
Definition set_contains (h : Z) (x : A) (s : pyset) : bool :=
    existsb (fun e => Z.eqb (fst e) h && eqb (snd e) x) s.

Definition set_insert (h : Z) (x : A) (s : pyset) : pyset :=
    if set_contains h x s then s else s ++ [(h, x)].

  (** [s.add(x)]: [x] is hashed first, which may raise. *)
Definition set_add (s : pyset) (x : A) : Exc pyset :=
    h <- hash x ;;
    Ok (set_insert h x s).

  (** [s.union(other)]: a new set; neither operand changes. *)
Definition set_union (s other : pyset) : pyset :=
    fold_left (fun acc e => set_insert (fst e) (snd e) acc) other s.

  (** [frozenset(s)]. *)
Definition frozenset (s : pyset) : pyset := s.

Definition elements (s : pyset) : list A := map snd s.

  (** The loops of the filter wrappers: every item goes through the
      filter function, and what it accepts is added to the set. *)
Fixpoint add_accepted {E : Type} (f : E -> Exc (option A))
           (items : list E) (resulting : pyset) : Exc pyset :=
    match items with
    | [] => Ok resulting
    | item :: items' =>
        accepted <- f item ;;
        match accepted with
        | Some b =>                        (* a bug instance is truthy *)
            resulting' <- set_add resulting b ;;
            add_accepted f items' resulting'
        | None => add_accepted f items' resulting
        end
    end.

End PySet.

Arguments pyset A : clear implicits.

(** ** The module [varats.provider.bug.bug] *)

Module bug.

  (** Whether an issue event closes an issue that represents a bug. *)
Definition _has_closed_a_bug (issue_event : IssueEvent) : bool :=
    if negb (String.eqb (event issue_event) "closed")
       || match commit_id issue_event with None => true | Some _ => false end
    then false
    else existsb (fun label => String.eqb (name label) "bug")
                 (labels (issue issue_event)).

  (** Whether a commit message indicates that the commit closed a bug.
      Only the first line is searched; [index] raises when the message has
      no line feed. *)
Definition _is_closing_message (commit_message : string) : Exc bool :=
    stop <- str_index commit_message LF ;;
    let first_line := slice_to stop commit_message in
    match re_search closing_pattern first_line with
    | Some _ => Ok true
    | None => Ok false
    end.

Definition _search_corresponding_pygit_bug (closing_commit : string)
             (project_repo : Repository) (issue_number : option Z)
    : Exc PygitBug.t :=
    closing_pycommit <- revparse_single project_repo closing_commit ;;
    let introducing_pycommits : list Commit := [] in
    Ok (PygitBug.mk closing_pycommit introducing_pycommits issue_number).

Definition _search_corresponding_raw_bug (closing_commit : string)
             (project_repo : Repository) (issue_number : option Z)
    : Exc RawBug.t :=
    let introducing_ids : list string := [] in
    Ok (RawBug.mk closing_commit introducing_ids issue_number).

Section Queries.

Variable H : Hasher.
Variable W : World.

Definition _filter_all_pygit_bugs (project_name : string)
               (issue_filter_function : IssueEvent -> Exc (option PygitBug.t))
               (commit_filter_function : Commit -> Exc (option PygitBug.t))
      : Exc (pyset PygitBug.t) :=
      let resulting_pygit_bugs : pyset PygitBug.t := [] in
      let issue_events := _get_all_issue_events W project_name in
      resulting_pygit_bugs <-
        add_accepted PygitBug.__eq__ (PygitBug.__hash__ H)
                     issue_filter_function issue_events resulting_pygit_bugs ;;
      let project_repo := get_local_project_git W project_name in
      target <- repo_head_target project_repo ;;
      most_recent_commit <- repo_getitem project_repo target ;;
      resulting_pygit_bugs <-
        add_accepted PygitBug.__eq__ (PygitBug.__hash__ H)
                     commit_filter_function
                     (walk project_repo (hex most_recent_commit))
                     resulting_pygit_bugs ;;
      Ok (frozenset resulting_pygit_bugs).

Definition _filter_all_raw_bugs (project_name : string)
               (issue_filter_function : IssueEvent -> Exc (option RawBug.t))
               (commit_filter_function : Commit -> Exc (option RawBug.t))
      : Exc (pyset RawBug.t) :=
      let resulting_raw_bugs : pyset RawBug.t := [] in
      let issue_events := _get_all_issue_events W project_name in
      resulting_raw_bugs <-
        add_accepted RawBug.__eq__ (RawBug.__hash__ H)
                     issue_filter_function issue_events resulting_raw_bugs ;;
      let project_repo := get_local_project_git W project_name in
      target <- repo_head_target project_repo ;;
      most_recent_commit <- repo_getitem project_repo target ;;
      resulting_raw_bugs <-
        add_accepted RawBug.__eq__ (RawBug.__hash__ H)
                     commit_filter_function
                     (walk project_repo (hex most_recent_commit))
                     resulting_raw_bugs ;;
      Ok (frozenset resulting_raw_bugs).

    (** The guard [_has_closed_a_bug(issue_event) and issue_event.commit_id]
        of the issue filter functions, with the commit id it lets through. *)
Definition closing_commit_id (issue_event : IssueEvent) : option string :=
      if _has_closed_a_bug issue_event && opt_str_truthy (commit_id issue_event)
      then commit_id issue_event
      else None.

    (** *** [find_all_pygit_bugs] *)

Definition accept_all_issue_pybugs (project_name : string)
               (issue_event : IssueEvent) : Exc (option PygitBug.t) :=
      match closing_commit_id issue_event with
      | Some cid =>
          let pygit_repo := get_local_project_git W project_name in
          pybug <- _search_corresponding_pygit_bug
                     cid pygit_repo (Some (number (issue issue_event))) ;;
          Ok (Some pybug)
      | None => Ok None
      end.

Definition accept_all_commit_pybugs (project_name : string)
               (commit : Commit) : Exc (option PygitBug.t) :=
      closing <- _is_closing_message (message commit) ;;
      if closing then
        let pygit_repo := get_local_project_git W project_name in
        pybug <- _search_corresponding_pygit_bug (hex commit) pygit_repo None ;;
        Ok (Some pybug)
      else Ok None.

Definition find_all_pygit_bugs (project_name : string)
      : Exc (pyset PygitBug.t) :=
      _filter_all_pygit_bugs project_name
        (accept_all_issue_pybugs project_name)
        (accept_all_commit_pybugs project_name).

    (** *** [find_all_raw_bugs] *)

Definition accept_all_issue_rawbugs (project_name : string)
               (issue_event : IssueEvent) : Exc (option RawBug.t) :=
      match closing_commit_id issue_event with
      | Some cid =>
          let pygit_repo := get_local_project_git W project_name in
          rawbug <- _search_corresponding_raw_bug
                      cid pygit_repo (Some (number (issue issue_event))) ;;
          Ok (Some rawbug)
      | None => Ok None
      end.

Definition accept_all_commit_rawbugs (project_name : string)
               (commit : Commit) : Exc (option RawBug.t) :=
      closing <- _is_closing_message (message commit) ;;
      if closing then
        let pygit_repo := get_local_project_git W project_name in
        rawbug <- _search_corresponding_raw_bug (hex commit) pygit_repo None ;;
        Ok (Some rawbug)
      else Ok None.

Definition find_all_raw_bugs (project_name : string)
      : Exc (pyset RawBug.t) :=
      _filter_all_raw_bugs project_name
        (accept_all_issue_rawbugs project_name)
        (accept_all_commit_rawbugs project_name).

    (** *** [find_pygit_bug_by_fix] and [find_raw_bug_by_fix] *)

Definition accept_issue_pybug_with_certain_fix
               (project_name fixing_commit : string)
               (issue_event : IssueEvent) : Exc (option PygitBug.t) :=
      match closing_commit_id issue_event with
      | Some cid =>
          let pygit_repo := get_local_project_git W project_name in
          pybug <- _search_corresponding_pygit_bug
                     cid pygit_repo (Some (number (issue issue_event))) ;;
          if String.eqb (hex (PygitBug.fixing_commit pybug)) fixing_commit
          then Ok (Some pybug)
          else Ok None
      | None => Ok None
      end.

Definition accept_commit_pybug_with_certain_fix
               (project_name fixing_commit : string)
               (commit : Commit) : Exc (option PygitBug.t) :=
      closing <- _is_closing_message (message commit) ;;
      if closing then
        let pygit_repo := get_local_project_git W project_name in
        pybug <- _search_corresponding_pygit_bug (hex commit) pygit_repo None ;;
        if String.eqb (hex (PygitBug.fixing_commit pybug)) fixing_commit
        then Ok (Some pybug)
        else Ok None
      else Ok None.

Definition find_pygit_bug_by_fix (project_name fixing_commit : string)
      : Exc (pyset PygitBug.t) :=
      _filter_all_pygit_bugs project_name
        (accept_issue_pybug_with_certain_fix project_name fixing_commit)
        (accept_commit_pybug_with_certain_fix project_name fixing_commit).

Definition accept_issue_rawbug_with_certain_fix
               (project_name fixing_commit : string)
               (issue_event : IssueEvent) : Exc (option RawBug.t) :=
      match closing_commit_id issue_event with
      | Some cid =>
          let pygit_repo := get_local_project_git W project_name in
          rawbug <- _search_corresponding_raw_bug
                      cid pygit_repo (Some (number (issue issue_event))) ;;
          if String.eqb (RawBug.fixing_commit rawbug) fixing_commit
          then Ok (Some rawbug)
          else Ok None
      | None => Ok None
      end.

Definition accept_commit_rawbug_with_certain_fix
               (project_name fixing_commit : string)
               (commit : Commit) : Exc (option RawBug.t) :=
      closing <- _is_closing_message (message commit) ;;
      if closing then
        let pygit_repo := get_local_project_git W project_name in
        rawbug <- _search_corresponding_raw_bug (hex commit) pygit_repo None ;;
        if String.eqb (RawBug.fixing_commit rawbug) fixing_commit
        then Ok (Some rawbug)
        else Ok None
      else Ok None.

Definition find_raw_bug_by_fix (project_name fixing_commit : string)
      : Exc (pyset RawBug.t) :=
      _filter_all_raw_bugs project_name
        (accept_issue_rawbug_with_certain_fix project_name fixing_commit)
        (accept_commit_rawbug_with_certain_fix project_name fixing_commit).

    (** *** [find_pygit_bug_by_introduction] and
            [find_raw_bug_by_introduction] *)

    (** [==] between a [pygit2.Commit] and a [str]: objects of unrelated
        types are never equal. *)
Definition commit_eq_str (c : Commit) (s : string) : bool := false.

Definition accept_issue_pybug_with_certain_introduction
               (project_name introducing_commit : string)
               (issue_event : IssueEvent) : Exc (option PygitBug.t) :=
      match closing_commit_id issue_event with
      | Some cid =>
          let pygit_repo := get_local_project_git W project_name in
          pybug <- _search_corresponding_pygit_bug
                     cid pygit_repo (Some (number (issue issue_event))) ;;
          if existsb (fun introducing_pycommit =>
                        String.eqb (hex introducing_pycommit) introducing_commit)
                     (PygitBug.introducing_commits pybug)
          then Ok (Some pybug)
          else Ok None
      | None => Ok None
      end.

Definition accept_commit_pybug_with_certain_introduction
               (project_name introducing_commit : string)
               (commit : Commit) : Exc (option PygitBug.t) :=
      closing <- _is_closing_message (message commit) ;;
      if closing then
        let pygit_repo := get_local_project_git W project_name in
        pybug <- _search_corresponding_pygit_bug (hex commit) pygit_repo None ;;
        if existsb (fun introducing_pycommit =>
                      commit_eq_str introducing_pycommit introducing_commit)
                   (PygitBug.introducing_commits pybug)
        then Ok (Some pybug)
        else Ok None
      else Ok None.

Definition find_pygit_bug_by_introduction
               (project_name introducing_commit : string)
      : Exc (pyset PygitBug.t) :=
      _filter_all_pygit_bugs project_name
        (accept_issue_pybug_with_certain_introduction
           project_name introducing_commit)
        (accept_commit_pybug_with_certain_introduction
           project_name introducing_commit).

Definition accept_issue_rawbug_with_certain_introduction
               (project_name introducing_commit : string)
               (issue_event : IssueEvent) : Exc (option RawBug.t) :=
      match closing_commit_id issue_event with
      | Some cid =>
          let pygit_repo := get_local_project_git W project_name in
          rawbug <- _search_corresponding_raw_bug
                      cid pygit_repo (Some (number (issue issue_event))) ;;
          if existsb (fun introducing_id =>
                        String.eqb introducing_id introducing_commit)
                     (RawBug.introducing_commits rawbug)
          then Ok (Some rawbug)
          else Ok None
      | None => Ok None
      end.

Definition accept_commit_rawbug_with_certain_introduction
               (project_name introducing_commit : string)
               (commit : Commit) : Exc (option RawBug.t) :=
      closing <- _is_closing_message (message commit) ;;
      if closing then
        let pygit_repo := get_local_project_git W project_name in
        rawbug <- _search_corresponding_raw_bug (hex commit) pygit_repo None ;;
        if existsb (fun introducing_pycommit =>
                      String.eqb introducing_pycommit introducing_commit)
                   (RawBug.introducing_commits rawbug)
        then Ok (Some rawbug)
        else Ok None
      else Ok None.

Definition find_raw_bug_by_introduction
               (project_name introducing_commit : string)
      : Exc (pyset RawBug.t) :=
      _filter_all_raw_bugs project_name
        (accept_issue_rawbug_with_certain_introduction
           project_name introducing_commit)
        (accept_commit_rawbug_with_certain_introduction
           project_name introducing_commit).

End Queries.

End bug.

(** ** The module [varats.provider.bug.bug_provider] *)

(** The functions of module [bug] that the provider calls by name.  The
    provider only evaluates them; what they compute is left open. *)
Record BugModule : Type := mkBugModule {
  find_all_issue_pygit_bugs : string -> Exc (pyset PygitBug.t);
  find_all_commit_message_pygit_bugs : string -> Exc (pyset PygitBug.t);
  find_all_issue_raw_bugs : string -> Exc (pyset RawBug.t);
  find_all_commit_message_raw_bugs : string -> Exc (pyset RawBug.t);
  find_issue_pygit_bugs_by_fix : string -> string -> Exc (pyset PygitBug.t);
  find_commit_message_pygit_bugs_by_fix :
    string -> string -> Exc (pyset PygitBug.t);
  find_issue_raw_bugs_by_fix : string -> string -> Exc (pyset RawBug.t);
  find_commit_message_raw_bugs_by_fix :
    string -> string -> Exc (pyset RawBug.t);
  find_issue_pygit_bugs_by_introduction :
    string -> string -> Exc (pyset PygitBug.t);
  find_commit_message_pygit_bugs_by_introduction :
    string -> string -> Exc (pyset PygitBug.t);
  find_issue_raw_bugs_by_introduction :
    string -> string -> Exc (pyset RawBug.t);
  find_commit_message_raw_bugs_by_introduction :
    string -> string -> Exc (pyset RawBug.t)
}.

(** A provider object: an instance of [BugProvider] itself, with the
    project's name and its GitHub name if it has one, or an instance of the
    subclass [BugDefaultProvider]. *)
Inductive Provider : Type :=
| BugProviderObj (project_NAME : string) (github_project_name : option string)
| BugDefaultProviderObj (project_NAME : string).

Module BugProvider.

Section Methods.

Variable B : Type.
Variable eqb : B -> B -> bool.

(** The statement [resulting_bugs.union(<call>)]: the call is evaluated,
    the union is computed as a new set, and the value of the expression
    statement is dropped. *)
Definition union_stmt (resulting_bugs : pyset B) (call : Exc (pyset B))
  : Exc unit :=
  other <- call ;;
  let _ := set_union eqb resulting_bugs other in
  Ok tt.

(** The body shared by the six query methods: [issue_query] is the call
    made under [if self.__github_project_name:], [commit_query] the call
    made for [self.project.NAME]. *)
Definition query_body (project_NAME : string)
           (github_project_name : option string)
           (issue_query commit_query : string -> Exc (pyset B))
  : Exc (pyset B) :=
  let resulting_bugs : pyset B := [] in
  _ <- match github_project_name with
       | Some gh =>
           if str_truthy gh
           then union_stmt resulting_bugs (issue_query gh)
           else Ok tt
       | None => Ok tt
       end ;;
  _ <- union_stmt resulting_bugs (commit_query project_NAME) ;;
  Ok (frozenset resulting_bugs).

End Methods.

Definition find_all_pygit_bugs (M : BugModule) (project_NAME : string)
           (github_project_name : option string) : Exc (pyset PygitBug.t) :=
  query_body PygitBug.__eq__ project_NAME github_project_name
    (find_all_issue_pygit_bugs M) (find_all_commit_message_pygit_bugs M).

Definition find_all_raw_bugs (M : BugModule) (project_NAME : string)
           (github_project_name : option string) : Exc (pyset RawBug.t) :=
  query_body RawBug.__eq__ project_NAME github_project_name
    (find_all_issue_raw_bugs M) (find_all_commit_message_raw_bugs M).

Definition find_pygit_bug_by_fix (M : BugModule) (project_NAME : string)
           (github_project_name : option string) (fixing_commit : string)
  : Exc (pyset PygitBug.t) :=
  query_body PygitBug.__eq__ project_NAME github_project_name
    (fun gh => find_issue_pygit_bugs_by_fix M gh fixing_commit)
    (fun nm => find_commit_message_pygit_bugs_by_fix M nm fixing_commit).

Definition find_raw_bug_by_fix (M : BugModule) (project_NAME : string)
           (github_project_name : option string) (fixing_commit : string)
  : Exc (pyset RawBug.t) :=
  query_body RawBug.__eq__ project_NAME github_project_name
    (fun gh => find_issue_raw_bugs_by_fix M gh fixing_commit)
    (fun nm => find_commit_message_raw_bugs_by_fix M nm fixing_commit).

Definition find_pygit_bug_by_introduction (M : BugModule)
           (project_NAME : string) (github_project_name : option string)
           (introducing_commit : string) : Exc (pyset PygitBug.t) :=
  query_body PygitBug.__eq__ project_NAME github_project_name
    (fun gh => find_issue_pygit_bugs_by_introduction M gh introducing_commit)
    (fun nm =>
       find_commit_message_pygit_bugs_by_introduction M nm introducing_commit).

Definition find_raw_bug_by_introduction (M : BugModule)
           (project_NAME : string) (github_project_name : option string)
           (introducing_commit : string) : Exc (pyset RawBug.t) :=
  query_body RawBug.__eq__ project_NAME github_project_name
    (fun gh => find_issue_raw_bugs_by_introduction M gh introducing_commit)
    (fun nm =>
       find_commit_message_raw_bugs_by_introduction M nm introducing_commit).

End BugProvider.

Module BugDefaultProvider.

Definition find_all_pygit_bugs : Exc (pyset PygitBug.t) := Ok (frozenset []).

Definition find_all_raw_bugs : Exc (pyset RawBug.t) := Ok (frozenset []).

Definition find_pygit_bug_by_fix (fixing_commit : string)
  : Exc (pyset PygitBug.t) := Ok (frozenset []).

Definition find_raw_bug_by_fix (fixing_commit : string)
  : Exc (pyset RawBug.t) := Ok (frozenset []).

Definition find_pygit_bug_by_introduction (introducing_commit : string)
  : Exc (pyset PygitBug.t) := Ok (frozenset []).

Definition find_raw_bug_by_introduction (introducing_commit : string)
  : Exc (pyset RawBug.t) := Ok (frozenset []).

End BugDefaultProvider.

(** Method calls on a provider object: the subclass overrides all six
    query methods, so the object's class selects the body that runs. *)
Module Call.

Definition find_all_pygit_bugs (M : BugModule) (self : Provider) :=
  match self with
  | BugProviderObj nm gh => BugProvider.find_all_pygit_bugs M nm gh
  | BugDefaultProviderObj _ => BugDefaultProvider.find_all_pygit_bugs
  end.

Definition find_all_raw_bugs (M : BugModule) (self : Provider) :=
  match self with
  | BugProviderObj nm gh => BugProvider.find_all_raw_bugs M nm gh
  | BugDefaultProviderObj _ => BugDefaultProvider.find_all_raw_bugs
  end.

Definition find_pygit_bug_by_fix (M : BugModule) (self : Provider)
           (fixing_commit : string) :=
  match self with
  | BugProviderObj nm gh => BugProvider.find_pygit_bug_by_fix M nm gh fixing_commit
  | BugDefaultProviderObj _ =>
      BugDefaultProvider.find_pygit_bug_by_fix fixing_commit
  end.

Definition find_raw_bug_by_fix (M : BugModule) (self : Provider)
           (fixing_commit : string) :=
  match self with
  | BugProviderObj nm gh => BugProvider.find_raw_bug_by_fix M nm gh fixing_commit
  | BugDefaultProviderObj _ =>
      BugDefaultProvider.find_raw_bug_by_fix fixing_commit
  end.

Definition find_pygit_bug_by_introduction (M : BugModule) (self : Provider)
           (introducing_commit : string) :=
  match self with
  | BugProviderObj nm gh =>
      BugProvider.find_pygit_bug_by_introduction M nm gh introducing_commit
  | BugDefaultProviderObj _ =>
      BugDefaultProvider.find_pygit_bug_by_introduction introducing_commit
  end.

Definition find_raw_bug_by_introduction (M : BugModule) (self : Provider)
           (introducing_commit : string) :=
  match self with
  | BugProviderObj nm gh =>
      BugProvider.find_raw_bug_by_introduction M nm gh introducing_commit
  | BugDefaultProviderObj _ =>
      BugDefaultProvider.find_raw_bug_by_introduction introducing_commit
  end.

End Call.

(** ** Creating a provider *)

(** The pieces of a pattern such as [GITHUB_URL_PATTERN]: a literal text,
    or a capturing group of any characters, written ".*" in parentheses. *)
Inductive PatternItem : Type :=
| Literal (text : string)
| AnyGroup.

(** A capturing group followed by the rest of the pattern [k]: the group
    is greedy, so the longest run of characters other than line feed after
    which [k] matches is taken, and shorter runs are tried on failure. *)
Fixpoint match_any_group {R : Type} (k : string -> option R) (s : string)
  : option (string * R) :=
  match s with
  | EmptyString => option_map (pair EmptyString) (k EmptyString)
  | String a s' =>
      if Ascii.eqb a LF then option_map (pair EmptyString) (k s)
      else
        match match_any_group k s' with
        | Some (g, r) => Some (String a g, r)
        | None => option_map (pair EmptyString) (k s)
        end
  end.

(** [pattern.match(s)]: the pattern matched at the start of [s]; the
    result lists what the groups captured. *)
Fixpoint pattern_match (items : list PatternItem) (s : string)
  : option (list string) :=
  match items with
  | [] => Some []
  | Literal text :: items' =>
      match strip_literal text s with
      | Some s' => pattern_match items' s'
      | None => None
      end
  | AnyGroup :: items' =>
      match match_any_group (pattern_match items') s with
      | Some (g, groups) => Some (g :: groups)
      | None => None
      end
  end.

(** The compiled pattern: the literal [https://github.com/], a group, a
    slash, a group, and the literal [.git]. *)
Definition GITHUB_URL_PATTERN : list PatternItem :=
  [Literal "https://github.com/"; AnyGroup; Literal "/"; AnyGroup;
   Literal ".git"].

(** A project class as far as provider creation reads it: its [NAME],
    whether its primary source has a [fetch] attribute, and the [remote]
    of that source. *)
Record Project : Type := mkProject {
  NAME : string;
  primary_source_has_fetch : bool;
  remote : string
}.

(** [BugProvider.create_provider_for_project]. *)
Definition create_provider_for_project (project : Project) : option Provider :=
  if primary_source_has_fetch project then
    match pattern_match GITHUB_URL_PATTERN (remote project) with
    | Some [group1; group2] =>
        Some (BugProviderObj (NAME project)
                             (Some (group1 ++ "/" ++ group2)%string))
    | _ =>
        (* project is no github project *)
        Some (BugProviderObj (NAME project) None)
    end
  else None.

(** [BugProvider.create_default_provider]. *)
Definition create_default_provider (project : Project) : Provider :=
  BugDefaultProviderObj (NAME project).

(** ** Vocabulary of the statements *)

(** The characters of a message, for stating where a line feed occurs. *)
Definition chars (s : string) : list ascii := list_ascii_of_string s.

Definition has_line_break (s : string) : Prop := In LF (chars s).

(** The commits that the history loop of the filter wrappers visits: the
    walk from the commit that the head points to.  There are none to visit,
    and the wrappers raise, when the head cannot be read. *)
Definition history (repo : Repository) : Exc (list Commit) :=
  target <- repo_head_target repo ;;
  most_recent_commit <- repo_getitem repo target ;;
  Ok (walk repo (hex most_recent_commit)).

(** A text that differs from the literal [lit] in case only: character by
    character, one of the forms that the character of [lit] matches. *)
Fixpoint ci_equal (m lit : string) : Prop :=
  match lit with
  | EmptyString => m = EmptyString
  | String p lit' =>
      exists v m', In v (ignorecase_class p)
                   /\ m = (v ++ m')%string /\ ci_equal m' lit'
  end.

(** A case-insensitive occurrence of the literal [lit] somewhere in [s]. *)
Definition occurs_ci (lit s : string) : Prop :=
  exists pre m post, s = (pre ++ m ++ post)%string /\ ci_equal m lit.

(** U+0130, the capital I with a dot above, and U+0131, the dotless small
    i, in their encoding. *)
Definition capital_I_with_dot : string := utf8 [196; 176].
Definition dotless_i : string := utf8 [196; 177].

(** The word "fix" somewhere in [s], in any case: an [f] or [F], then one of
    the four characters that [i] matches when case is ignored, then an [x]
    or [X]. *)
Definition fix_occurs (s : string) : Prop :=
  exists pre c1 c2 c3 post,
    s = (pre ++ c1 ++ c2 ++ c3 ++ post)%string
    /\ In c1 ["f"; "F"]
    /\ In c2 ["i"; "I"; capital_I_with_dot; dotless_i]
    /\ In c3 ["x"; "X"].

(** The pattern, read as a set of alternatives, matches somewhere in [s]. *)
Definition pattern_occurs (alts : list string) (s : string) : Prop :=
  exists lit, In lit alts /\ occurs_ci lit s.

(** The calls into module [bug] that a query method of [BugProvider]
    makes all return: the issue query for the GitHub name when there is a
    non-empty one, and the commit-message query for the project's name. *)
Definition helpers_return {B : Type} (project_NAME : string)
           (github_project_name : option string)
           (issue_query commit_query : string -> Exc (pyset B)) : Prop :=
  (forall gh, github_project_name = Some gh -> gh <> "" ->
              returns (issue_query gh))
  /\ returns (commit_query project_NAME).

(** ** Concrete projects for the examples *)

(** One admissible choice of hash functions, for evaluating examples. *)
Definition sample_hasher : Hasher :=
  mkHasher (fun s => Z.of_nat (String.length s))
           (fun z => z)
           0%Z
           (fun c => Z.of_nat (String.length (hex c)))
           (fun hs => fold_left Z.add hs 0%Z).

(** A project whose tracker closed bug issue 7 with commit [abc123], and
    whose history holds that commit with the message ["Fix crash\n"]. *)
Definition fix_event : IssueEvent :=
  mkIssueEvent "closed" (Some "abc123") (mkIssue 7 [mkLabel "bug"]).

Definition fix_commit : Commit := mkCommit "abc123" ("Fix crash" ++ newline).

Definition fix_repo : Repository :=
  mkRepository (Some "abc123")
               (fun start => if String.eqb start "abc123" then [fix_commit]
                             else [])
               (fun rev => if String.eqb rev "abc123" then Some fix_commit
                           else None).

Definition fix_world : World := mkWorld (fun _ => [fix_event]) (fun _ => fix_repo).

(** The two records that describe the fix [abc123]: one from the tracker,
    one from the commit message. *)
Definition tracker_rawbug : RawBug.t := RawBug.mk "abc123" [] (Some 7%Z).
Definition history_rawbug : RawBug.t := RawBug.mk "abc123" [] None.
Definition tracker_pybug : PygitBug.t := PygitBug.mk fix_commit [] (Some 7%Z).
Definition history_pybug : PygitBug.t := PygitBug.mk fix_commit [] None.

(** A project whose tracker closed bug issue 3 with a commit that the local
    repository does not contain; its history has one unrelated commit. *)
Definition dangling_event : IssueEvent :=
  mkIssueEvent "closed" (Some "deadbeef") (mkIssue 3 [mkLabel "bug"]).

Definition plain_commit : Commit :=
  mkCommit "0a1b2c" ("Initial import" ++ newline).

Definition dangling_repo : Repository :=
  mkRepository (Some "0a1b2c")
               (fun start => if String.eqb start "0a1b2c" then [plain_commit]
                             else [])
               (fun rev => if String.eqb rev "0a1b2c" then Some plain_commit
                           else None).

Definition dangling_world : World :=
  mkWorld (fun _ => [dangling_event]) (fun _ => dangling_repo).

(** Two raw bugs, and two pygit bugs, that name the same introducing
    commits in opposite order. *)
Definition rawbug_ab : RawBug.t := RawBug.mk "abc123" ["a1"; "b2"] None.
Definition rawbug_ba : RawBug.t := RawBug.mk "abc123" ["b2"; "a1"] None.

Definition commit_a1 : Commit := mkCommit "a1" ("Add parser" ++ newline).
Definition commit_b2 : Commit := mkCommit "b2" ("Add lexer" ++ newline).

Definition pybug_ab : PygitBug.t :=
  PygitBug.mk fix_commit [commit_a1; commit_b2] None.
Definition pybug_ba : PygitBug.t :=
  PygitBug.mk fix_commit [commit_b2; commit_a1] None.

(** A project whose only commit has a one-line message without a final
    line feed. *)
Definition terse_commit : Commit := mkCommit "0a1b2c" "Initial import".

Definition terse_world : World :=
  mkWorld (fun _ => [])
          (fun _ => mkRepository (Some "0a1b2c") (fun _ => [terse_commit])
                                 (fun _ => Some terse_commit)).

(** A project whose repository has no commit yet, and whose tracker has no
    event. *)
Definition empty_repo : Repository :=
  mkRepository None (fun _ => []) (fun _ => None).

Definition empty_world : World := mkWorld (fun _ => []) (fun _ => empty_repo).

(** The names that [bug.py] binds at module level: its imports, its two
    classes and its functions. *)
Definition bug_module_names : list string :=
  ["re"; "tp"; "pygit2"; "Github"; "IssueEvent"; "PaginatedList";
   "Repository"; "get_local_project_git_path"; "get_local_project_git";
   "get_cached_github_object_list"; "PygitBug"; "RawBug";
   "_has_closed_a_bug"; "_is_closing_message"; "_get_all_issue_events";
   "_search_corresponding_pygit_bug"; "_search_corresponding_raw_bug";
   "_filter_all_pygit_bugs"; "_filter_all_raw_bugs";
   "find_all_pygit_bugs"; "find_all_raw_bugs";
   "find_pygit_bug_by_fix"; "find_raw_bug_by_fix";
   "find_pygit_bug_by_introduction"; "find_raw_bug_by_introduction"].

(** The names that the query methods of [BugProvider] look up in module
    [bug]. *)
Definition provider_helper_names : list string :=
  ["find_all_issue_pygit_bugs"; "find_all_commit_message_pygit_bugs";
   "find_all_issue_raw_bugs"; "find_all_commit_message_raw_bugs";
   "find_issue_pygit_bugs_by_fix"; "find_commit_message_pygit_bugs_by_fix";
   "find_issue_raw_bugs_by_fix"; "find_commit_message_raw_bugs_by_fix";
   "find_issue_pygit_bugs_by_introduction";
   "find_commit_message_pygit_bugs_by_introduction";
   "find_issue_raw_bugs_by_introduction";
   "find_commit_message_raw_bugs_by_introduction"].

(** [bug.<name>] for a name that the module does not bind: the attribute
    lookup raises, before any call is made. *)
Definition unbound_attribute {A : Type} (name : string) : Exc A :=
  Raise (AttributeError name).

(** Module [bug] as [bug.py] defines it, seen from the provider: none of
    the twelve names is bound. *)
Definition src_bug_module : BugModule :=
  mkBugModule
    (fun _ => unbound_attribute "find_all_issue_pygit_bugs")
    (fun _ => unbound_attribute "find_all_commit_message_pygit_bugs")
    (fun _ => unbound_attribute "find_all_issue_raw_bugs")
    (fun _ => unbound_attribute "find_all_commit_message_raw_bugs")
    (fun _ _ => unbound_attribute "find_issue_pygit_bugs_by_fix")
    (fun _ _ => unbound_attribute "find_commit_message_pygit_bugs_by_fix")
    (fun _ _ => unbound_attribute "find_issue_raw_bugs_by_fix")
    (fun _ _ => unbound_attribute "find_commit_message_raw_bugs_by_fix")
    (fun _ _ => unbound_attribute "find_issue_pygit_bugs_by_introduction")
    (fun _ _ =>
       unbound_attribute "find_commit_message_pygit_bugs_by_introduction")
    (fun _ _ => unbound_attribute "find_issue_raw_bugs_by_introduction")
    (fun _ _ =>
       unbound_attribute "find_commit_message_raw_bugs_by_introduction").

(** * Properties *)

Unset Implicit Arguments.

(** ** The error monad *)

Lemma bind_Ok {A B : Type} (a : A) (k : A -> Exc B) : bind (Ok a) k = k a.
Proof. reflexivity. Qed.

Lemma bind_Raise {A B : Type} (e : PyExc) (k : A -> Exc B) :
  bind (Raise e) k = Raise e.
Proof. reflexivity. Qed.

Lemma returns_not_raises {A : Type} (m : Exc A) : returns m -> ~ raises m.
Proof. intros [a Ha] [e He]; congruence. Qed.

(** ** Strings and the first line *)

Lemma find_char_None (c : ascii) (s : string) :
  find_char c s = None <-> ~ In c (chars s).
Proof.
  induction s as [|a s IH]; simpl.
  - split; [intros _ [] | reflexivity].
  - destruct (Ascii.eqb_spec a c) as [->|Hne].
    + split; [discriminate | intros Hn; exfalso; apply Hn; now left].
    + destruct (find_char c s) eqn:E; simpl.
      * split; [discriminate|].
        intros Hn. exfalso.
        assert (Hin : In c (chars s)).
        { destruct (in_dec ascii_dec c (chars s)) as [Hi|Hi]; [exact Hi|].
          apply IH in Hi. discriminate. }
        apply Hn. now right.
      * split; [|reflexivity].
        intros _ [Heq|Hin]; [congruence|].
        now apply (proj1 IH).
Qed.

Lemma find_char_first_line (c : ascii) (first rest : string) :
  ~ In c (chars first) ->
  find_char c (first ++ String c rest)%string = Some (String.length first).
Proof.
  induction first as [|a first IH]; simpl; intros Hn.
  - now rewrite Ascii.eqb_refl.
  - destruct (Ascii.eqb_spec a c) as [->|Hne].
    + exfalso; apply Hn; now left.
    + rewrite IH; [reflexivity|].
      intros Hin; apply Hn; now right.
Qed.

Lemma slice_to_first_line (first rest : string) :
  slice_to (String.length first) (first ++ rest)%string = first.
Proof.
  unfold slice_to.
  induction first as [|a first IH]; simpl.
  - now destruct rest.
  - now rewrite IH.
Qed.

(** ** Appending strings *)

Lemma str_app_assoc (a b c : string) :
  ((a ++ b) ++ c)%string = (a ++ (b ++ c))%string.
Proof. induction a as [|x a IH]; simpl; [reflexivity | now rewrite IH]. Qed.

Lemma str_app_nil_r (a : string) : (a ++ "")%string = a.
Proof. induction a as [|x a IH]; simpl; [reflexivity | now rewrite IH]. Qed.

Lemma str_length_app (a b : string) :
  String.length (a ++ b)%string = String.length a + String.length b.
Proof. induction a as [|x a IH]; simpl; [reflexivity | now rewrite IH]. Qed.

Lemma chars_app (a b : string) : chars (a ++ b)%string = chars a ++ chars b.
Proof.
  unfold chars. induction a as [|x a IH]; simpl; [reflexivity | now rewrite IH].
Qed.

Lemma str_app_inv_head (a b c : string) :
  (a ++ b)%string = (a ++ c)%string -> b = c.
Proof.
  induction a as [|x a IH]; simpl; [trivial|].
  intros [= E]. now apply IH.
Qed.

(** Two ways of cutting one string: the shorter tail is the end of the
    longer one. *)
Lemma str_app_tail (x y tail z : string) :
  (x ++ tail)%string = (y ++ z)%string ->
  String.length z <= String.length tail ->
  exists g, tail = (g ++ z)%string.
Proof.
  revert y. induction x as [|a x IH]; simpl; intros y E Hlen.
  - now exists y.
  - destruct y as [|b y]; simpl in E.
    + exfalso. subst z. simpl in Hlen. rewrite str_length_app in Hlen. lia.
    + injection E as _ E. now apply (IH y).
Qed.

(** ** Literals at the start of a text *)

Lemma strip_literal_spec (lit s r : string) :
  strip_literal lit s = Some r <-> s = (lit ++ r)%string.
Proof.
  revert s. induction lit as [|p lit IH]; intros s; simpl.
  - split; [now intros [= ->] | now intros ->].
  - destruct s as [|a s]; [split; discriminate|].
    destruct (Ascii.eqb_spec p a) as [->|Hne].
    + rewrite IH. split; [now intros -> | now intros [= ->]].
    + split; [discriminate | intros [= E _]; congruence].
Qed.

(** ** The regular expression *)

Lemma strip_any_sound (variants : list string) (s r : string) :
  strip_any variants s = Some r ->
  exists v, In v variants /\ s = (v ++ r)%string.
Proof.
  induction variants as [|v variants IH]; simpl; [discriminate|].
  destruct (strip_literal v s) as [r0|] eqn:E.
  - intros [= <-]. apply strip_literal_spec in E.
    exists v. split; [now left | exact E].
  - intros Hs. destruct (IH Hs) as (v' & Hin & Ev).
    exists v'. split; [now right | exact Ev].
Qed.

(** The forms that one character matches are not the start of one
    another: a text begins with at most one of them. *)
Lemma ignorecase_class_prefix_free (p : ascii) (v1 v2 r1 r2 : string) :
  In v1 (ignorecase_class p) -> In v2 (ignorecase_class p) ->
  (v1 ++ r1)%string = (v2 ++ r2)%string -> v1 = v2.
Proof.
  destruct p as [b0 b1 b2 b3 b4 b5 b6 b7].
  destruct b0, b1, b2, b3, b4, b5, b6, b7;
    vm_compute; intros H1 H2 E;
    repeat (destruct H1 as [H1|H1]; [|]); try contradiction;
    repeat (destruct H2 as [H2|H2]; [|]); try contradiction;
    subst v1 v2; try reflexivity; discriminate E.
Qed.

Lemma strip_any_class (p : ascii) (v r : string) :
  In v (ignorecase_class p) ->
  strip_any (ignorecase_class p) (v ++ r)%string = Some r.
Proof.
  intros Hin.
  destruct (strip_any (ignorecase_class p) (v ++ r)%string) as [r0|] eqn:E.
  - apply strip_any_sound in E as (v0 & Hin0 & E0).
    assert (v = v0)
      by exact (ignorecase_class_prefix_free p v v0 r r0 Hin Hin0 E0).
    subst v0. apply str_app_inv_head in E0. now subst.
  - exfalso. revert E. generalize (ignorecase_class p) Hin.
    intros variants. induction variants as [|v0 variants IH]; simpl;
      intros Hv; [contradiction|].
    destruct (strip_literal v0 (v ++ r)%string) eqn:E0; [discriminate|].
    destruct Hv as [->|Hv]; [|now apply IH].
    assert (E1 : strip_literal v (v ++ r)%string = Some r)
      by now apply strip_literal_spec.
    congruence.
Qed.

Lemma match_literal_spec (lit s r : string) :
  match_literal lit s = Some r <->
  exists m, s = (m ++ r)%string /\ ci_equal m lit.
Proof.
  revert s; induction lit as [|p lit IH]; intros s; simpl.
  - split.
    + intros [= ->]. now exists EmptyString.
    + intros (m & -> & ->). reflexivity.
  - split.
    + destruct (strip_any (ignorecase_class p) s) as [s'|] eqn:E;
        [|discriminate].
      apply strip_any_sound in E as (v & Hin & ->).
      intros Hm. apply IH in Hm as (m' & -> & Hm').
      exists (v ++ m')%string. split; [now rewrite str_app_assoc|].
      now exists v, m'.
    + intros (m & -> & v & m' & Hin & -> & Hm').
      rewrite str_app_assoc, (strip_any_class p v _ Hin).
      apply IH. now exists m'.
Qed.

Lemma ci_equal_app (m a b : string) :
  ci_equal m (a ++ b)%string ->
  exists ma mb, m = (ma ++ mb)%string /\ ci_equal ma a /\ ci_equal mb b.
Proof.
  revert m. induction a as [|p a IH]; intros m; simpl.
  - intros Hb. now exists EmptyString, m.
  - intros (v & m' & Hin & -> & Hm').
    destruct (IH m' Hm') as (ma & mb & -> & Ha & Hb).
    exists (v ++ ma)%string, mb. split; [now rewrite str_app_assoc|].
    split; [now exists v, ma | exact Hb].
Qed.

Lemma match_alternation_Some (alts : list string) (s : string) :
  match_alternation alts s <> None <->
  exists lit, In lit alts /\ match_literal lit s <> None.
Proof.
  induction alts as [|lit alts IH]; simpl.
  - split; [congruence | intros (? & [] & _)].
  - destruct (match_literal lit s) eqn:E.
    + split; [|discriminate].
      intros _. exists lit. split; [now left | congruence].
    + rewrite IH. split.
      * intros (l & Hin & Hl). exists l. split; [now right | exact Hl].
      * intros (l & [<-|Hin] & Hl); [congruence|].
        exists l. now split.
Qed.

Lemma re_search_from_Some (alts : list string) (pos : nat) (s : string) :
  re_search_from alts pos s <> None <->
  exists pre post,
    s = (pre ++ post)%string /\ match_alternation alts post <> None.
Proof.
  revert pos; induction s as [|a s IH]; intros pos; simpl.
  - destruct (match_alternation alts EmptyString) eqn:E.
    + split; [|discriminate].
      intros _. exists EmptyString, EmptyString. split; [reflexivity|congruence].
    + split; [congruence|].
      intros (pre & post & Hs & Hm).
      destruct pre; [|discriminate]. simpl in Hs. subst post. congruence.
  - destruct (match_alternation alts (String a s)) eqn:E.
    + split; [|discriminate].
      intros _. exists EmptyString, (String a s). split; [reflexivity|congruence].
    + rewrite IH. split.
      * intros (pre & post & -> & Hm). exists (String a pre), post. now split.
      * intros (pre & post & Hs & Hm).
        destruct pre as [|b pre]; simpl in Hs.
        -- subst post. congruence.
        -- injection Hs as -> ->. now exists pre, post.
Qed.

(** [re.search] finds a match exactly when one of the alternatives occurs,
    case being ignored, somewhere in the subject. *)
Lemma re_search_spec (alts : list string) (s : string) :
  re_search alts s <> None <-> pattern_occurs alts s.
Proof.
  unfold re_search, pattern_occurs, occurs_ci.
  rewrite re_search_from_Some. split.
  - intros (pre & post & -> & Hm).
    apply match_alternation_Some in Hm as (lit & Hin & Hl).
    destruct (match_literal lit post) as [r|] eqn:E; [|congruence].
    apply match_literal_spec in E as (m & -> & Hm).
    exists lit. split; [exact Hin|]. now exists pre, m, r.
  - intros (lit & Hin & pre & m & post & -> & Hm).
    exists pre, (m ++ post)%string. split; [reflexivity|].
    apply match_alternation_Some. exists lit. split; [exact Hin|].
    assert (E : match_literal lit (m ++ post)%string = Some post)
      by (apply match_literal_spec; now exists m).
    congruence.
Qed.

(** ** The commit-message detector *)

(** On a message with a line break the detector answers, and its answer
    is whether the pattern occurs in the text before the first line
    break. *)
Lemma is_closing_message_first_line (first rest : string) :
  ~ has_line_break first ->
  exists b,
    bug._is_closing_message (first ++ String LF rest)%string = Ok b
    /\ (b = true <-> pattern_occurs closing_pattern first).
Proof.
  intros Hn. unfold bug._is_closing_message, str_index.
  rewrite (find_char_first_line LF first rest Hn). simpl bind.
  rewrite slice_to_first_line.
  destruct (re_search closing_pattern first) as [sp|] eqn:E.
  - exists true. split; [reflexivity|].
    split; [|reflexivity]. intros _. apply re_search_spec. congruence.
  - exists false. split; [reflexivity|].
    split; [discriminate|].
    intros Hocc. apply re_search_spec in Hocc. congruence.
Qed.

(** Every alternative of the pattern begins with [fix], so the pattern
    occurs exactly when [fix] does: the match is not anchored at word
    boundaries. *)
Lemma closing_pattern_is_fix (s : string) :
  pattern_occurs closing_pattern s <-> occurs_ci "fix" s.
Proof.
  unfold pattern_occurs, closing_pattern. split.
  - intros (lit & Hin & pre & m & post & -> & Hm).
    simpl in Hin. destruct Hin as [<-|[<-|[<-|[]]]].
    + now exists pre, m, post.
    + apply (ci_equal_app m "fix" "ed") in Hm as (ma & mb & -> & Ha & _).
      exists pre, ma, (mb ++ post)%string.
      split; [now rewrite str_app_assoc | exact Ha].
    + apply (ci_equal_app m "fix" "es") in Hm as (ma & mb & -> & Ha & _).
      exists pre, ma, (mb ++ post)%string.
      split; [now rewrite str_app_assoc | exact Ha].
  - intros Hocc. exists "fix". split; [now left | exact Hocc].
Qed.

Lemma occurs_ci_fix (s : string) : occurs_ci "fix" s <-> fix_occurs s.
Proof.
  unfold occurs_ci, fix_occurs. split.
  - intros (pre & m & post & -> & c1 & m1 & H1 & -> & c2 & m2 & H2 & ->
            & c3 & m3 & H3 & -> & ->).
    exists pre, c1, c2, c3, post.
    split; [rewrite !str_app_assoc; reflexivity|].
    split; [exact H1|]. split; [exact H2 | exact H3].
  - intros (pre & c1 & c2 & c3 & post & -> & H1 & H2 & H3).
    exists pre, (c1 ++ c2 ++ c3)%string, post.
    split; [now rewrite !str_app_assoc|].
    exists c1, (c2 ++ c3)%string. split; [exact H1|]. split; [reflexivity|].
    exists c2, c3. split; [exact H2|]. split; [reflexivity|].
    exists c3, EmptyString. split; [exact H3|].
    split; [now rewrite str_app_nil_r | reflexivity].
Qed.

(** C3: a commit message without a line break makes the detector raise
    [ValueError]; it does not answer [False]. *)
Theorem is_closing_message_without_line_break (commit_message : string) :
  ~ has_line_break commit_message ->
  bug._is_closing_message commit_message = Raise ValueError.
Proof.
  intros Hn. unfold bug._is_closing_message, str_index.
  apply find_char_None in Hn. now rewrite Hn.
Qed.

Lemma is_closing_message_empty_message :
  ~ has_line_break "" /\ bug._is_closing_message "" = Raise ValueError.
Proof.
  assert (Hn : ~ has_line_break "") by (intros []).
  split; [exact Hn|].
  exact (is_closing_message_without_line_break "" Hn).
Defined.

(** C4: the detector on the three messages that the description names: the
    first two have a line break and are answered from their first line;
    ["prefixed build"] has none and raises [ValueError]. *)
Theorem is_closing_message_examples :
  bug._is_closing_message ("Fixes #12" ++ newline ++ "more text") = Ok true
  /\ bug._is_closing_message ("Unrelated change" ++ newline ++ "fix later")
     = Ok false
  /\ bug._is_closing_message "prefixed build" = Raise ValueError
  /\ bug._is_closing_message ("prefixed build" ++ newline) = Ok true.
Proof. repeat split; vm_compute; reflexivity. Qed.

(** ** Equality and hashing of bug records *)

Lemma list_eqb_refl {A : Type} (eqb : A -> A -> bool) (l : list A) :
  (forall x, eqb x x = true) -> list_eqb eqb l l = true.
Proof.
  intros Hrefl. induction l as [|x l IH]; simpl; [reflexivity|].
  now rewrite Hrefl, IH.
Qed.

Lemma list_eqb_true_map {A K : Type} (key : A -> K)
      (eqb : A -> A -> bool) (l1 l2 : list A) :
  (forall x y, eqb x y = true -> key x = key y) ->
  list_eqb eqb l1 l2 = true -> map key l1 = map key l2.
Proof.
  intros Hsound. revert l2.
  induction l1 as [|x l1 IH]; intros [|y l2]; simpl; try discriminate.
  - reflexivity.
  - intros Hb. apply andb_true_iff in Hb as [Hxy Hl].
    f_equal; [now apply Hsound | now apply IH].
Qed.

Lemma commit_eqb_hex (c1 c2 : Commit) : commit_eqb c1 c2 = true -> hex c1 = hex c2.
Proof. unfold commit_eqb. apply String.eqb_eq. Qed.

Lemma string_list_eqb_eq (l1 l2 : list string) :
  list_eqb String.eqb l1 l2 = true -> l1 = l2.
Proof.
  intros Hb.
  rewrite <- (map_id l1), <- (map_id l2).
  apply (list_eqb_true_map (fun s => s) String.eqb); [|exact Hb].
  intros x y. apply String.eqb_eq.
Qed.

(** Hashing the tuple of a bug's fields fails at its second item, the
    list of introducing commits, whatever the fields hold. *)
Lemma hash_tuple_with_list (H : Hasher) (first third : PyVal)
      (items : list PyVal) :
  returns (py_hash H first) ->
  py_hash H (VTuple [first; VList items; third]) = Raise TypeError.
Proof.
  intros [h Hh]. simpl. now rewrite Hh.
Qed.

Lemma pygit_hash_raises (H : Hasher) (pybug : PygitBug.t) :
  PygitBug.__hash__ H pybug = Raise TypeError.
Proof.
  unfold PygitBug.__hash__. apply hash_tuple_with_list.
  now exists (hash_commit H (PygitBug.fixing_commit pybug)).
Qed.

Lemma raw_hash_raises (H : Hasher) (rawbug : RawBug.t) :
  RawBug.__hash__ H rawbug = Raise TypeError.
Proof.
  unfold RawBug.__hash__. apply hash_tuple_with_list.
  now exists (hash_str H (RawBug.fixing_commit rawbug)).
Qed.

(** C2: hashing a bug record raises [TypeError], for every record of either
    class: the tuple that [__hash__] builds holds a list. *)
Theorem bug_hash_raises (H : Hasher) (pybug : PygitBug.t) (rawbug : RawBug.t) :
  PygitBug.__hash__ H pybug = Raise TypeError
  /\ RawBug.__hash__ H rawbug = Raise TypeError.
Proof.
  split; [apply pygit_hash_raises | apply raw_hash_raises].
Qed.

(** Adding a bug record to a set therefore raises as well. *)
Lemma set_add_pybug_raises (H : Hasher) (s : pyset PygitBug.t)
      (b : PygitBug.t) :
  set_add PygitBug.__eq__ (PygitBug.__hash__ H) s b = Raise TypeError.
Proof. unfold set_add. now rewrite pygit_hash_raises. Qed.

Lemma set_add_rawbug_raises (H : Hasher) (s : pyset RawBug.t) (b : RawBug.t) :
  set_add RawBug.__eq__ (RawBug.__hash__ H) s b = Raise TypeError.
Proof. unfold set_add. now rewrite raw_hash_raises. Qed.

(** Equal records of one class have equal fields, so whatever hash a tuple
    of equal fields had, equal records would share it. *)
Lemma rawbug_eq_fields (a b : RawBug.t) :
  RawBug.__eq__ a b = true <-> a = b.
Proof.
  unfold RawBug.__eq__. destruct a as [fa ia na], b as [fb ib nb]; simpl.
  split.
  - intros Hb. apply andb_true_iff in Hb as [Hb Hn].
    apply andb_true_iff in Hb as [Hf Hi].
    apply String.eqb_eq in Hf. apply string_list_eqb_eq in Hi.
    assert (na = nb) as ->.
    { destruct na, nb; simpl in Hn; try discriminate; [|reflexivity].
      apply Z.eqb_eq in Hn. now subst. }
    now subst.
  - intros [= -> -> ->].
    rewrite String.eqb_refl, (list_eqb_refl String.eqb ib String.eqb_refl).
    destruct nb; simpl; [apply Z.eqb_refl | reflexivity].
Qed.

Lemma pygit_eq_introducing (p q : PygitBug.t) :
  PygitBug.__eq__ p q = true ->
  map hex (PygitBug.introducing_commits p)
  = map hex (PygitBug.introducing_commits q).
Proof.
  unfold PygitBug.__eq__. intros Hb.
  apply andb_true_iff in Hb as [Hb _].
  apply andb_true_iff in Hb as [_ Hi].
  exact (list_eqb_true_map hex commit_eqb _ _ commit_eqb_hex Hi).
Qed.

(** A set that holds [x] alone takes in a [y] that [x] does not equal. *)
Lemma set_insert_distinct {A : Type} (eqb : A -> A -> bool)
      (hx hy : Z) (x y : A) :
  eqb x y = false ->
  set_insert eqb hy y [(hx, x)] = [(hx, x); (hy, y)].
Proof.
  intros Hne. unfold set_insert, set_contains. simpl.
  now rewrite Hne, andb_false_r.
Qed.

(** C8: two records of one class with equal fixing commit and equal issue
    id, whose introducing commits are the same but in another order, are
    not equal; yet neither can be put into a set, where they would coexist:
    [add] hashes the record and raises [TypeError]. *)
Theorem reordered_introducing_commits_distinct
        (H : Hasher) (p q : PygitBug.t) (a b : RawBug.t)
        (pygit_set : pyset PygitBug.t) (raw_set : pyset RawBug.t) :
  commit_eqb (PygitBug.fixing_commit p) (PygitBug.fixing_commit q) = true ->
  PygitBug.issue_id p = PygitBug.issue_id q ->
  Permutation (map hex (PygitBug.introducing_commits p))
              (map hex (PygitBug.introducing_commits q)) ->
  map hex (PygitBug.introducing_commits p)
  <> map hex (PygitBug.introducing_commits q) ->
  RawBug.fixing_commit a = RawBug.fixing_commit b ->
  RawBug.issue_id a = RawBug.issue_id b ->
  Permutation (RawBug.introducing_commits a) (RawBug.introducing_commits b) ->
  RawBug.introducing_commits a <> RawBug.introducing_commits b ->
  PygitBug.__eq__ p q = false
  /\ RawBug.__eq__ a b = false
  /\ set_add PygitBug.__eq__ (PygitBug.__hash__ H) pygit_set p
     = Raise TypeError
  /\ set_add PygitBug.__eq__ (PygitBug.__hash__ H) pygit_set q
     = Raise TypeError
  /\ set_add RawBug.__eq__ (RawBug.__hash__ H) raw_set a = Raise TypeError
  /\ set_add RawBug.__eq__ (RawBug.__hash__ H) raw_set b = Raise TypeError.
Proof.
  intros _ _ _ Hp _ _ _ Ha.
  assert (Epq : PygitBug.__eq__ p q = false).
  { destruct (PygitBug.__eq__ p q) eqn:E; [|reflexivity].
    exfalso. apply Hp. now apply pygit_eq_introducing. }
  assert (Eab : RawBug.__eq__ a b = false).
  { destruct (RawBug.__eq__ a b) eqn:E; [|reflexivity].
    exfalso. apply Ha. apply rawbug_eq_fields in E. now subst. }
  repeat split; try assumption;
    (apply set_add_pybug_raises || apply set_add_rawbug_raises).
Qed.

Lemma reordered_introducing_commits_example :
  PygitBug.__eq__ pybug_ab pybug_ba = false
  /\ RawBug.__eq__ rawbug_ab rawbug_ba = false
  /\ set_add PygitBug.__eq__ (PygitBug.__hash__ sample_hasher) [] pybug_ab
     = Raise TypeError
  /\ set_add PygitBug.__eq__ (PygitBug.__hash__ sample_hasher) [] pybug_ba
     = Raise TypeError
  /\ set_add RawBug.__eq__ (RawBug.__hash__ sample_hasher) [] rawbug_ab
     = Raise TypeError
  /\ set_add RawBug.__eq__ (RawBug.__hash__ sample_hasher) [] rawbug_ba
     = Raise TypeError.
Proof.
  apply (reordered_introducing_commits_distinct
           sample_hasher pybug_ab pybug_ba rawbug_ab rawbug_ba [] []).
  - reflexivity.
  - reflexivity.
  - simpl. apply perm_swap.
  - simpl. discriminate.
  - reflexivity.
  - reflexivity.
  - simpl. apply perm_swap.
  - simpl. discriminate.
Defined.

(** ** The issue-close detector *)

(** C6: the detector holds exactly for a [closed] event that has a commit
    id and whose issue carries a label named [bug], letter for letter; a
    label named [Bug] alone does not satisfy it. *)
Theorem has_closed_a_bug_iff (issue_event : IssueEvent) :
  (bug._has_closed_a_bug issue_event = true <->
   event issue_event = "closed"
   /\ commit_id issue_event <> None
   /\ exists label, In label (labels (issue issue_event))
                    /\ name label = "bug")
  /\ (labels (issue issue_event) = [mkLabel "Bug"] ->
      bug._has_closed_a_bug issue_event = false).
Proof.
  unfold bug._has_closed_a_bug. split.
  - destruct (String.eqb_spec (event issue_event) "closed") as [He|He]; simpl.
    + destruct (commit_id issue_event) as [cid|]; simpl.
      * rewrite existsb_exists. split.
        -- intros (l & Hin & Hl). apply String.eqb_eq in Hl.
           repeat split; [exact He | discriminate | now exists l].
        -- intros (_ & _ & l & Hin & Hl). exists l.
           split; [exact Hin | now apply String.eqb_eq].
      * split; [discriminate | intros (_ & Hc & _); congruence].
    + split; [discriminate | intros (Hc & _); congruence].
  - intros ->.
    destruct (negb (event issue_event =? "closed")%string
              || match commit_id issue_event with
                 | Some _ => false
                 | None => true
                 end); reflexivity.
Qed.

Lemma has_closed_a_bug_capitalised_label :
  bug._has_closed_a_bug
    (mkIssueEvent "closed" (Some "abc123") (mkIssue 7 [mkLabel "Bug"]))
  = false.
Proof.
  exact (proj2 (has_closed_a_bug_iff
                  (mkIssueEvent "closed" (Some "abc123")
                                (mkIssue 7 [mkLabel "Bug"])))
               eq_refl).
Defined.

(** ** The default provider *)

(** C9: an instance of [BugDefaultProvider] answers each of the six
    queries with the empty set, whatever the argument. *)
Theorem default_provider_answers_empty
        (M : BugModule) (project_NAME commit : string) :
  let self := BugDefaultProviderObj project_NAME in
  Call.find_all_pygit_bugs M self = Ok []
  /\ Call.find_all_raw_bugs M self = Ok []
  /\ Call.find_pygit_bug_by_fix M self commit = Ok []
  /\ Call.find_raw_bug_by_fix M self commit = Ok []
  /\ Call.find_pygit_bug_by_introduction M self commit = Ok []
  /\ Call.find_raw_bug_by_introduction M self commit = Ok [].
Proof. cbv zeta. repeat split. Qed.

(** ** The filter wrappers *)

Section AddAccepted.

Context {A E : Type}.
Variable eqb : A -> A -> bool.
Variable hash : A -> Exc Z.
Variable f : E -> Exc (option A).

(** Items that the filter function turns down leave the set as it is. *)
Lemma add_accepted_none (items : list E) (resulting : pyset A) :
  (forall item, In item items -> f item = Ok None) ->
  add_accepted eqb hash f items resulting = Ok resulting.
Proof.
  induction items as [|item items IH]; simpl; intros Hnone; [reflexivity|].
  rewrite (Hnone item (or_introl eq_refl)). simpl.
  apply IH. intros i Hi. apply Hnone. now right.
Qed.

(** An exception raised by the filter function on the first item that it
    does not turn down leaves the loop, and nothing catches it. *)
Lemma add_accepted_raises_at (pre post : list E) (item : E) (e : PyExc)
      (resulting : pyset A) :
  (forall i, In i pre -> f i = Ok None) ->
  f item = Raise e ->
  add_accepted eqb hash f (pre ++ item :: post) resulting = Raise e.
Proof.
  induction pre as [|i pre IH]; simpl; intros Hnone Hraise.
  - now rewrite Hraise.
  - rewrite (Hnone i (or_introl eq_refl)). simpl.
    apply IH; [|exact Hraise]. intros j Hj. apply Hnone. now right.
Qed.

(** When hashing always fails, a loop that completes has accepted
    nothing. *)
Lemma add_accepted_unhashable (items : list E) (resulting s : pyset A) :
  (forall x, hash x = Raise TypeError) ->
  add_accepted eqb hash f items resulting = Ok s -> s = resulting.
Proof.
  intros Hhash. revert resulting.
  induction items as [|item items IH]; simpl; intros resulting Hs.
  - congruence.
  - destruct (f item) as [[b|]|e]; simpl in Hs.
    + unfold set_add in Hs. rewrite Hhash in Hs. discriminate.
    + now apply IH.
    + discriminate.
Qed.

End AddAccepted.

(** The wrappers in two steps: the loop over the issue events, then the
    loop over the history, which starts by reading the head. *)
Lemma filter_all_raw_bugs_steps
      (H : Hasher) (W : World) (project_name : string)
      (issue_filter_function : IssueEvent -> Exc (option RawBug.t))
      (commit_filter_function : Commit -> Exc (option RawBug.t)) :
  bug._filter_all_raw_bugs H W project_name
                           issue_filter_function commit_filter_function
  = (resulting <-
       add_accepted RawBug.__eq__ (RawBug.__hash__ H) issue_filter_function
                    (_get_all_issue_events W project_name) [] ;;
     commits <- history (get_local_project_git W project_name) ;;
     add_accepted RawBug.__eq__ (RawBug.__hash__ H) commit_filter_function
                  commits resulting).
Proof.
  unfold bug._filter_all_raw_bugs, history, repo_head_target, repo_getitem,
    frozenset.
  destruct (add_accepted _ _ issue_filter_function _ _) as [r|e]; simpl;
    [|reflexivity].
  destruct (head_target (get_local_project_git W project_name)) as [t|];
    simpl; [|reflexivity].
  destruct (lookup (get_local_project_git W project_name) t) as [c|]; simpl;
    [|reflexivity].
  now destruct (add_accepted _ _ commit_filter_function _ _).
Qed.

Lemma filter_all_pygit_bugs_steps
      (H : Hasher) (W : World) (project_name : string)
      (issue_filter_function : IssueEvent -> Exc (option PygitBug.t))
      (commit_filter_function : Commit -> Exc (option PygitBug.t)) :
  bug._filter_all_pygit_bugs H W project_name
                             issue_filter_function commit_filter_function
  = (resulting <-
       add_accepted PygitBug.__eq__ (PygitBug.__hash__ H)
                    issue_filter_function
                    (_get_all_issue_events W project_name) [] ;;
     commits <- history (get_local_project_git W project_name) ;;
     add_accepted PygitBug.__eq__ (PygitBug.__hash__ H)
                  commit_filter_function commits resulting).
Proof.
  unfold bug._filter_all_pygit_bugs, history, repo_head_target, repo_getitem,
    frozenset.
  destruct (add_accepted _ _ issue_filter_function _ _) as [r|e]; simpl;
    [|reflexivity].
  destruct (head_target (get_local_project_git W project_name)) as [t|];
    simpl; [|reflexivity].
  destruct (lookup (get_local_project_git W project_name) t) as [c|]; simpl;
    [|reflexivity].
  now destruct (add_accepted _ _ commit_filter_function _ _).
Qed.

(** C7: the fix [abc123] found by the tracker (issue 7) and by its commit
    message gives two records that are not equal; adding the first of them
    to the result set raises [TypeError], so the find-all query returns no
    set at all. *)
Theorem find_all_tracker_and_history_records (H : Hasher) :
  bug.accept_all_issue_rawbugs fix_world "proj" fix_event
  = Ok (Some tracker_rawbug)
  /\ bug.accept_all_commit_rawbugs fix_world "proj" fix_commit
     = Ok (Some history_rawbug)
  /\ RawBug.__eq__ tracker_rawbug history_rawbug = false
  /\ PygitBug.__eq__ tracker_pybug history_pybug = false
  /\ bug.find_all_raw_bugs H fix_world "proj" = Raise TypeError
  /\ bug.find_all_pygit_bugs H fix_world "proj" = Raise TypeError.
Proof.
  repeat split; try (vm_compute; reflexivity).
Qed.

(** ** The provider's queries *)

(** A query method of [BugProvider] that returns, returns the empty set:
    the unions it computes are dropped. *)
Lemma query_body_Ok {B : Type} (eqb : B -> B -> bool)
      (project_NAME : string) (github_project_name : option string)
      (issue_query commit_query : string -> Exc (pyset B)) (s : pyset B) :
  BugProvider.query_body eqb project_NAME github_project_name
                         issue_query commit_query = Ok s ->
  s = [].
Proof.
  unfold BugProvider.query_body, BugProvider.union_stmt, frozenset.
  destruct github_project_name as [gh|]; simpl.
  - destruct (str_truthy gh); simpl.
    + destruct (issue_query gh); simpl; [|discriminate].
      destruct (commit_query project_NAME); simpl; congruence.
    + destruct (commit_query project_NAME); simpl; congruence.
  - destruct (commit_query project_NAME); simpl; congruence.
Qed.

(** C1: [bug.py] binds none of the names that the provider looks up in
    module [bug], so the find-all queries of a [BugProvider] raise
    [AttributeError] at the first lookup they make, for every project, with
    or without a GitHub name; they return no set. *)
Theorem provider_find_all_unbound_helpers
        (project_NAME : string) (github_project_name : option string) :
  (forall name, In name provider_helper_names -> ~ In name bug_module_names)
  /\ Call.find_all_pygit_bugs
       src_bug_module (BugProviderObj project_NAME github_project_name)
     = Raise (AttributeError
                (if opt_str_truthy github_project_name
                 then "find_all_issue_pygit_bugs"
                 else "find_all_commit_message_pygit_bugs"))
  /\ Call.find_all_raw_bugs
       src_bug_module (BugProviderObj project_NAME github_project_name)
     = Raise (AttributeError
                (if opt_str_truthy github_project_name
                 then "find_all_issue_raw_bugs"
                 else "find_all_commit_message_raw_bugs")).
Proof.
  split.
  - intros name Hin Hbound.
    assert (Hb : existsb (String.eqb name) bug_module_names = true).
    { apply existsb_exists. exists name. split; [exact Hbound|].
      apply String.eqb_refl. }
    simpl in Hin.
    repeat (destruct Hin as [<-|Hin]; [vm_compute in Hb; discriminate|]).
    exact Hin.
  - destruct github_project_name as [[|a gh]|]; split; reflexivity.
Qed.

(** ** Identifiers that do not resolve *)

Lemma closing_commit_id_None_pygit (W : World) (project_name : string)
      (issue_event : IssueEvent) :
  bug.closing_commit_id issue_event = None ->
  bug.accept_all_issue_pybugs W project_name issue_event = Ok None.
Proof.
  unfold bug.accept_all_issue_pybugs. now intros ->.
Qed.

(** C5, counterexample: the tracker names a commit that the repository
    does not hold.  The pygit resolver raises [KeyError] on it and the
    find-all query ends with that exception; the raw resolver builds a
    record for the unknown commit. *)
Lemma unresolved_event_aborts_find_all :
  bug.closing_commit_id dangling_event = Some "deadbeef"
  /\ lookup (get_local_project_git dangling_world "proj") "deadbeef" = None
  /\ bug.accept_all_issue_pybugs dangling_world "proj" dangling_event
     = Raise (KeyError "deadbeef")
  /\ ~ returns (bug.find_all_pygit_bugs sample_hasher dangling_world "proj")
  /\ bug.accept_all_issue_rawbugs dangling_world "proj" dangling_event
     <> Ok None.
Proof.
  repeat split; try reflexivity.
  - intros [s Hs]. vm_compute in Hs. discriminate.
  - vm_compute. discriminate.
Qed.

(** C5, as the code has it: when the first bug-closing event of the tracker
    names a commit that does not resolve, the pygit resolver raises
    [KeyError] for it, and [find_all_pygit_bugs] raises that [KeyError]; the
    raw resolver resolves nothing and builds a record from the id. *)
Theorem unresolved_closing_commit_is_fatal
        (H : Hasher) (W : World) (project_name : string)
        (pre post : list IssueEvent) (issue_event : IssueEvent) (cid : string) :
  _get_all_issue_events W project_name = pre ++ issue_event :: post ->
  (forall e, In e pre -> bug.closing_commit_id e = None) ->
  bug.closing_commit_id issue_event = Some cid ->
  lookup (get_local_project_git W project_name) cid = None ->
  bug._search_corresponding_pygit_bug
    cid (get_local_project_git W project_name)
    (Some (number (issue issue_event)))
  = Raise (KeyError cid)
  /\ bug.find_all_pygit_bugs H W project_name = Raise (KeyError cid)
  /\ bug.accept_all_issue_rawbugs W project_name issue_event
     = Ok (Some (RawBug.mk cid [] (Some (number (issue issue_event))))).
Proof.
  intros Hev Hpre Hcid Hlook.
  assert (Hres : bug._search_corresponding_pygit_bug
                   cid (get_local_project_git W project_name)
                   (Some (number (issue issue_event)))
                 = Raise (KeyError cid)).
  { unfold bug._search_corresponding_pygit_bug, revparse_single.
    now rewrite Hlook. }
  repeat split.
  - exact Hres.
  - unfold bug.find_all_pygit_bugs, bug._filter_all_pygit_bugs.
    rewrite Hev.
    rewrite (add_accepted_raises_at PygitBug.__eq__ (PygitBug.__hash__ H)
               (bug.accept_all_issue_pybugs W project_name)
               pre post issue_event (KeyError cid)); [reflexivity| |].
    + intros e He. apply closing_commit_id_None_pygit. now apply Hpre.
    + unfold bug.accept_all_issue_pybugs. rewrite Hcid, Hres. reflexivity.
  - unfold bug.accept_all_issue_rawbugs. now rewrite Hcid.
Qed.

Lemma unresolved_closing_commit_is_fatal_example :
  bug.find_all_pygit_bugs sample_hasher dangling_world "proj"
  = Raise (KeyError "deadbeef").
Proof.
  exact (proj1 (proj2
    (unresolved_closing_commit_is_fatal
       sample_hasher dangling_world "proj" [] [] dangling_event "deadbeef"
       eq_refl (fun e (F : In e []) => match F with end) eq_refl eq_refl))).
Defined.

(** The same holds for the first commit of the history with a closing
    message, should its id not resolve. *)
Lemma unresolved_history_commit_is_fatal
      (H : Hasher) (W : World) (project_name : string)
      (pre post : list Commit) (commit : Commit) :
  (forall e, In e (_get_all_issue_events W project_name) ->
             bug.closing_commit_id e = None) ->
  history (get_local_project_git W project_name)
  = Ok (pre ++ commit :: post) ->
  (forall c, In c pre -> bug._is_closing_message (message c) = Ok false) ->
  bug._is_closing_message (message commit) = Ok true ->
  lookup (get_local_project_git W project_name) (hex commit) = None ->
  bug.find_all_pygit_bugs H W project_name = Raise (KeyError (hex commit)).
Proof.
  intros Hev Hwalk Hpre Hmsg Hlook.
  unfold bug.find_all_pygit_bugs. rewrite filter_all_pygit_bugs_steps.
  rewrite add_accepted_none.
  2:{ intros e He. apply closing_commit_id_None_pygit. now apply Hev. }
  rewrite Hwalk. simpl bind.
  apply add_accepted_raises_at.
  - intros c Hc. unfold bug.accept_all_commit_pybugs.
    now rewrite (Hpre c Hc).
  - unfold bug.accept_all_commit_pybugs, bug._search_corresponding_pygit_bug,
      revparse_single.
    rewrite Hmsg, Hlook. reflexivity.
Qed.

(** ** Queries by introducing commit *)

Lemma has_line_break_found (s : string) :
  find_char LF s <> None -> has_line_break s.
Proof.
  intros Hf. unfold has_line_break.
  destruct (in_dec ascii_dec LF (chars s)) as [Hin|Hn]; [exact Hin|].
  apply find_char_None in Hn. contradiction.
Qed.

(** On a message with a line break the detector returns. *)
Lemma is_closing_message_returns (commit_message : string) :
  has_line_break commit_message ->
  returns (bug._is_closing_message commit_message).
Proof.
  intros Hlb. unfold bug._is_closing_message, str_index.
  destruct (find_char LF commit_message) as [i|] eqn:E.
  - simpl.
    destruct (re_search closing_pattern (slice_to i commit_message));
      eexists; reflexivity.
  - exfalso. apply find_char_None in E. contradiction.
Qed.

(** The resolvers leave the introducing commits empty. *)
Lemma search_corresponding_pygit_bug_introducing
      (closing_commit : string) (project_repo : Repository)
      (issue_number : option Z) (pybug : PygitBug.t) :
  bug._search_corresponding_pygit_bug closing_commit project_repo issue_number
  = Ok pybug ->
  PygitBug.introducing_commits pybug = [].
Proof.
  unfold bug._search_corresponding_pygit_bug.
  destruct (revparse_single project_repo closing_commit); simpl;
    [|discriminate].
  now intros [= <-].
Qed.

Lemma search_corresponding_raw_bug_introducing
      (closing_commit : string) (project_repo : Repository)
      (issue_number : option Z) (rawbug : RawBug.t) :
  bug._search_corresponding_raw_bug closing_commit project_repo issue_number
  = Ok rawbug ->
  RawBug.introducing_commits rawbug = [].
Proof.
  unfold bug._search_corresponding_raw_bug. now intros [= <-].
Qed.

Lemma search_corresponding_pygit_bug_resolved
      (closing_commit : string) (project_repo : Repository)
      (issue_number : option Z) :
  lookup project_repo closing_commit <> None ->
  exists c,
    bug._search_corresponding_pygit_bug closing_commit project_repo issue_number
    = Ok (PygitBug.mk c [] issue_number).
Proof.
  unfold bug._search_corresponding_pygit_bug, revparse_single.
  destruct (lookup project_repo closing_commit) as [c|]; [|congruence].
  intros _. now exists c.
Qed.

Lemma find_raw_bug_by_introduction_empty
      (H : Hasher) (W : World) (project_name introducing_commit : string)
      (commits : list Commit) :
  history (get_local_project_git W project_name) = Ok commits ->
  (forall c, In c commits -> has_line_break (message c)) ->
  bug.find_raw_bug_by_introduction H W project_name introducing_commit = Ok [].
Proof.
  intros Hhist Hmsg.
  unfold bug.find_raw_bug_by_introduction. rewrite filter_all_raw_bugs_steps.
  rewrite add_accepted_none.
  2:{ intros e _. unfold bug.accept_issue_rawbug_with_certain_introduction.
      now destruct (bug.closing_commit_id e). }
  rewrite Hhist. simpl bind. apply add_accepted_none.
  intros c Hc. unfold bug.accept_commit_rawbug_with_certain_introduction.
  destruct (is_closing_message_returns (message c) (Hmsg c Hc)) as [b ->].
  now destruct b.
Qed.

Lemma find_pygit_bug_by_introduction_empty
      (H : Hasher) (W : World) (project_name introducing_commit : string)
      (commits : list Commit) :
  history (get_local_project_git W project_name) = Ok commits ->
  (forall c, In c commits -> has_line_break (message c)) ->
  (forall e cid, In e (_get_all_issue_events W project_name) ->
                 bug.closing_commit_id e = Some cid ->
                 lookup (get_local_project_git W project_name) cid <> None) ->
  (forall c, In c commits ->
             bug._is_closing_message (message c) = Ok true ->
             lookup (get_local_project_git W project_name) (hex c) <> None) ->
  bug.find_pygit_bug_by_introduction H W project_name introducing_commit
  = Ok [].
Proof.
  intros Hhist Hmsg Hev Hwalk.
  unfold bug.find_pygit_bug_by_introduction.
  rewrite filter_all_pygit_bugs_steps.
  rewrite add_accepted_none.
  2:{ intros e He. unfold bug.accept_issue_pybug_with_certain_introduction.
      destruct (bug.closing_commit_id e) as [cid|] eqn:Ecid; [|reflexivity].
      destruct (search_corresponding_pygit_bug_resolved
                  cid (get_local_project_git W project_name)
                  (Some (number (issue e))) (Hev e cid He Ecid)) as [c ->].
      reflexivity. }
  rewrite Hhist. simpl bind. apply add_accepted_none.
  intros c Hc. unfold bug.accept_commit_pybug_with_certain_introduction.
  destruct (is_closing_message_returns (message c) (Hmsg c Hc)) as [b Eb].
  rewrite Eb. destruct b; [|reflexivity]. simpl bind.
  destruct (search_corresponding_pygit_bug_resolved
              (hex c) (get_local_project_git W project_name) None
              (Hwalk c Hc Eb)) as [c' ->].
  reflexivity.
Qed.

(** C10, counterexample: neither query returns the empty set on every
    project.  Where a bug-closing event names a commit that the repository
    does not hold, the pygit query raises [KeyError], while the raw query
    returns the empty set; on a repository without commits both queries
    raise [GitError] when they read the head. *)
Lemma by_introduction_query_raises :
  bug.find_pygit_bug_by_introduction sample_hasher dangling_world "proj" "a1"
  = Raise (KeyError "deadbeef")
  /\ bug.find_pygit_bug_by_introduction sample_hasher dangling_world "proj" "a1"
     <> Ok []
  /\ bug.find_raw_bug_by_introduction sample_hasher dangling_world "proj" "a1"
     = Ok []
  /\ bug.find_raw_bug_by_introduction sample_hasher empty_world "proj" "a1"
     = Raise GitError
  /\ bug.find_pygit_bug_by_introduction sample_hasher empty_world "proj" "a1"
     = Raise GitError.
Proof. repeat split; try reflexivity. discriminate. Qed.

(** Nor does the raw query return when a commit message has no line
    break: the detector raises on it. *)
Lemma by_introduction_query_terse_message :
  bug.find_raw_bug_by_introduction sample_hasher terse_world "proj" "a1"
  = Raise ValueError.
Proof. reflexivity. Qed.

(** C10, as the code has it: a record built by either resolver has no
    introducing commits.  So, for a project whose repository has a head
    commit and whose commit messages each have a line break, the raw query
    by introducing commit returns the empty set, whatever the commit asked
    for; and so does the pygit query when, in addition, the commit ids of
    the bug-closing events and of the commits with a closing message
    resolve. *)
Theorem by_introduction_queries_empty
        (H : Hasher) (W : World) (project_name introducing_commit : string)
        (commits : list Commit) :
  history (get_local_project_git W project_name) = Ok commits ->
  (forall c, In c commits -> has_line_break (message c)) ->
  (forall closing_commit project_repo issue_number pybug,
      bug._search_corresponding_pygit_bug
        closing_commit project_repo issue_number = Ok pybug ->
      PygitBug.introducing_commits pybug = [])
  /\ (forall closing_commit project_repo issue_number rawbug,
         bug._search_corresponding_raw_bug
           closing_commit project_repo issue_number = Ok rawbug ->
         RawBug.introducing_commits rawbug = [])
  /\ bug.find_raw_bug_by_introduction H W project_name introducing_commit
     = Ok []
  /\ ((forall e cid, In e (_get_all_issue_events W project_name) ->
                     bug.closing_commit_id e = Some cid ->
                     lookup (get_local_project_git W project_name) cid
                     <> None) ->
      (forall c, In c commits ->
                 bug._is_closing_message (message c) = Ok true ->
                 lookup (get_local_project_git W project_name) (hex c)
                 <> None) ->
      bug.find_pygit_bug_by_introduction H W project_name introducing_commit
      = Ok []).
Proof.
  intros Hhist Hmsg. repeat split.
  - apply search_corresponding_pygit_bug_introducing.
  - apply search_corresponding_raw_bug_introducing.
  - now apply (find_raw_bug_by_introduction_empty H W _ _ commits).
  - intros Hev Hwalk.
    now apply (find_pygit_bug_by_introduction_empty H W _ _ commits).
Qed.

Lemma by_introduction_queries_empty_example :
  history (get_local_project_git fix_world "proj") = Ok [fix_commit]
  /\ bug.find_raw_bug_by_introduction sample_hasher fix_world "proj" "a1"
     = Ok []
  /\ bug.find_pygit_bug_by_introduction sample_hasher fix_world "proj" "a1"
     = Ok [].
Proof.
  assert (Hmsg : forall c, In c [fix_commit] -> has_line_break (message c)).
  { intros c [<-|[]]. apply has_line_break_found. vm_compute. discriminate. }
  split; [reflexivity|].
  destruct (by_introduction_queries_empty
              sample_hasher fix_world "proj" "a1" [fix_commit] eq_refl Hmsg)
    as (_ & _ & Hraw & Hpygit).
  split; [exact Hraw|].
  apply Hpygit.
  - intros e cid [<-|[]]. vm_compute. intros [= <-]. discriminate.
  - intros c [<-|[]] _. vm_compute. discriminate.
Defined.

(** * Further properties of the two modules *)

(** ** Matching a pattern *)

Section AnyGroup.

Context {R : Type}.
Variable k : string -> option R.

(** What the group captured has no line feed, and the rest of the pattern
    matched what follows it. *)
Lemma match_any_group_sound (s g : string) (r : R) :
  match_any_group k s = Some (g, r) ->
  exists rest, s = (g ++ rest)%string /\ ~ In LF (chars g) /\ k rest = Some r.
Proof.
  revert g. induction s as [|a s IH]; intros g; simpl.
  - destruct (k "") as [r0|] eqn:E; simpl; [|discriminate].
    intros [= <- <-]. exists "". repeat split; [intros [] | exact E].
  - assert (Hstop : option_map (pair "") (k (String a s)) = Some (g, r) ->
                    exists rest, String a s = (g ++ rest)%string
                                 /\ ~ In LF (chars g) /\ k rest = Some r).
    { destruct (k (String a s)) as [r0|] eqn:E; simpl; [|discriminate].
      intros [= <- <-]. exists (String a s).
      repeat split; [intros [] | exact E]. }
    destruct (Ascii.eqb_spec a LF) as [->|Hne]; [exact Hstop|].
    destruct (match_any_group k s) as [[g0 r0]|] eqn:E; [|exact Hstop].
    intros [= <- <-].
    destruct (IH g0 eq_refl) as (rest & -> & Hg & Hk).
    exists rest. repeat split; [|exact Hk].
    intros [Heq|Hin]; [congruence | contradiction].
Qed.

(** The group matches wherever some run without line feed is followed
    by a match of the rest of the pattern. *)
Lemma match_any_group_complete (g rest : string) :
  ~ In LF (chars g) -> k rest <> None ->
  match_any_group k (g ++ rest)%string <> None.
Proof.
  induction g as [|a g IH]; simpl; intros Hg Hk.
  - destruct rest as [|b rest]; simpl.
    + now destruct (k "").
    + destruct (Ascii.eqb b LF).
      * now destruct (k (String b rest)).
      * destruct (match_any_group k rest) as [[g0 r0]|]; [discriminate|].
        now destruct (k (String b rest)).
  - destruct (Ascii.eqb_spec a LF) as [->|Hne].
    + exfalso. apply Hg. now left.
    + assert (Hrec : match_any_group k (g ++ rest)%string <> None).
      { apply IH; [|exact Hk]. intros Hin. apply Hg. now right. }
      destruct (match_any_group k (g ++ rest)%string) as [[g0 r0]|];
        [discriminate | congruence].
Qed.

(** The group is greedy: no longer run would have done. *)
Lemma match_any_group_longest (s g : string) (r : R) (g' rest' : string) :
  match_any_group k s = Some (g, r) ->
  s = (g' ++ rest')%string -> ~ In LF (chars g') -> k rest' <> None ->
  String.length g' <= String.length g.
Proof.
  revert g g'. induction s as [|a s IH]; intros g g'; simpl.
  - intros _ E _ _. destruct g'; [simpl; lia | discriminate].
  - intros Hm E Hg' Hk.
    destruct g' as [|b g']; [simpl; lia|].
    simpl in E. injection E as <- ->.
    destruct (Ascii.eqb_spec a LF) as [->|Hne].
    + exfalso. apply Hg'. now left.
    + assert (Hg'' : ~ In LF (chars g'))
        by (intros Hin; apply Hg'; now right).
      destruct (match_any_group k (g' ++ rest')%string) as [[g0 r0]|] eqn:Em.
      * injection Hm as <- <-. simpl.
        apply le_n_S. now apply (IH g0 g').
      * exfalso.
        now apply (match_any_group_complete g' rest' Hg'' Hk).
Qed.

End AnyGroup.

(** ** The GitHub remote of a project *)

(** A remote of the GitHub form is matched. *)
Lemma github_pattern_match_complete (a b rest : string) :
  ~ In LF (chars a) -> ~ In LF (chars b) ->
  pattern_match GITHUB_URL_PATTERN
    ("https://github.com/" ++ a ++ "/" ++ b ++ ".git" ++ rest)%string
  <> None.
Proof.
  intros Ha Hb. unfold GITHUB_URL_PATTERN. cbn [pattern_match].
  assert (E1 : strip_literal "https://github.com/"
                 ("https://github.com/" ++ a ++ "/" ++ b ++ ".git" ++ rest)
               = Some (a ++ "/" ++ b ++ ".git" ++ rest)%string)
    by now apply strip_literal_spec.
  rewrite E1.
  match goal with
  | |- match match_any_group ?k ?t with _ => _ end <> None =>
      assert (Hm : match_any_group k t <> None)
  end.
  { apply match_any_group_complete; [exact Ha|].
    assert (E3 : strip_literal "/" ("/" ++ b ++ ".git" ++ rest)
                 = Some (b ++ ".git" ++ rest)%string)
      by now apply strip_literal_spec.
    rewrite E3.
    match goal with
    | |- match match_any_group ?k ?t with _ => _ end <> None =>
        assert (Hm : match_any_group k t <> None)
    end.
    { apply match_any_group_complete; [exact Hb|].
      assert (E5 : strip_literal ".git" (".git" ++ rest) = Some rest)
        by now apply strip_literal_spec.
      now rewrite E5. }
    destruct (match_any_group _ _) as [[g gs]|]; congruence. }
  destruct (match_any_group _ _) as [[g gs]|]; congruence.
Qed.

(** What a match captured: two groups, and the subject read back from
    them. *)
Lemma github_pattern_match_groups (s : string) (groups : list string) :
  pattern_match GITHUB_URL_PATTERN s = Some groups ->
  exists g1 g2 rest,
    groups = [g1; g2]
    /\ s = ("https://github.com/" ++ g1 ++ "/" ++ g2 ++ ".git" ++ rest)%string
    /\ ~ In LF (chars g1) /\ ~ In LF (chars g2)
    /\ match_any_group (pattern_match [Literal ".git"])
                       (g2 ++ ".git" ++ rest)%string = Some (g2, []).
Proof.
  unfold GITHUB_URL_PATTERN. cbn [pattern_match].
  destruct (strip_literal "https://github.com/" s) as [s1|] eqn:E1;
    [|discriminate].
  apply strip_literal_spec in E1.
  destruct (match_any_group _ s1) as [[g1 gs1]|] eqn:E2; [|discriminate].
  apply match_any_group_sound in E2 as (r1 & -> & Hg1 & E2).
  destruct (strip_literal "/" r1) as [r2|] eqn:E3; [|discriminate].
  apply strip_literal_spec in E3.
  destruct (match_any_group _ r2) as [[g2 gs2]|] eqn:E4; [|discriminate].
  pose proof E4 as E4'.
  apply match_any_group_sound in E4 as (r3 & -> & Hg2 & E4).
  cbn [pattern_match] in E4.
  destruct (strip_literal ".git" r3) as [r4|] eqn:E5; [|discriminate].
  apply strip_literal_spec in E5.
  injection E4 as <-. injection E2 as <-. intros [= <-].
  exists g1, g2, r4. subst. now repeat split.
Qed.

(** The remotes that [GITHUB_URL_PATTERN] matches: the GitHub prefix, two
    texts without line feed with a slash between them, [.git], and
    anything after that. *)
Theorem github_pattern_match_iff (s : string) :
  pattern_match GITHUB_URL_PATTERN s <> None <->
  exists a b rest,
    s = ("https://github.com/" ++ a ++ "/" ++ b ++ ".git" ++ rest)%string
    /\ ~ In LF (chars a) /\ ~ In LF (chars b).
Proof.
  split.
  - destruct (pattern_match GITHUB_URL_PATTERN s) as [groups|] eqn:E;
      [intros _ | congruence].
    apply github_pattern_match_groups in E
      as (g1 & g2 & rest & _ & Es & Hg1 & Hg2 & _).
    now exists g1, g2, rest.
  - intros (a & b & rest & -> & Ha & Hb).
    now apply github_pattern_match_complete.
Qed.

Lemma str_app_inv_tail (a b c : string) :
  (a ++ c)%string = (b ++ c)%string -> a = b.
Proof.
  revert b. induction a as [|x a IH]; intros [|y b]; simpl; intros E.
  - reflexivity.
  - exfalso. apply (f_equal String.length) in E. simpl in E.
    rewrite str_length_app in E. lia.
  - exfalso. apply (f_equal String.length) in E. simpl in E.
    rewrite str_length_app in E. lia.
  - injection E as -> E. f_equal. now apply IH.
Qed.

(** The name that the pattern reads from [https://github.com/owner/repo.git]
    is [owner/repo], wherever the slashes and dots of the two parts
    are. *)
Lemma github_pattern_match_round_trip (owner repo : string) :
  ~ In LF (chars owner) -> ~ In LF (chars repo) ->
  exists g1 g2,
    pattern_match GITHUB_URL_PATTERN
      ("https://github.com/" ++ owner ++ "/" ++ repo ++ ".git")%string
    = Some [g1; g2]
    /\ (g1 ++ "/" ++ g2)%string = (owner ++ "/" ++ repo)%string.
Proof.
  intros Ho Hr.
  set (s := ("https://github.com/" ++ owner ++ "/" ++ repo ++ ".git")%string).
  assert (Hm : pattern_match GITHUB_URL_PATTERN s <> None).
  { exact (github_pattern_match_complete owner repo "" Ho Hr). }
  destruct (pattern_match GITHUB_URL_PATTERN s) as [groups|] eqn:E;
    [clear Hm | congruence].
  apply github_pattern_match_groups in E
    as (g1 & g2 & rest & -> & Es & Hg1 & Hg2 & Egreedy).
  exists g1, g2. split; [reflexivity|].
  subst s. apply str_app_inv_head in Es.
  (* the body of the remote, cut before the second group *)
  assert (Ecut : ((g1 ++ "/") ++ g2 ++ ".git" ++ rest)%string
                 = ((owner ++ "/" ++ repo) ++ ".git")%string).
  { rewrite !str_app_assoc. symmetry. exact Es. }
  assert (Hroom : String.length ".git"
                  <= String.length (g2 ++ ".git" ++ rest)%string).
  { rewrite !str_length_app. simpl. lia. }
  destruct (str_app_tail (g1 ++ "/") (owner ++ "/" ++ repo)
                         (g2 ++ ".git" ++ rest) ".git" Ecut Hroom) as [g Eg].
  assert (Hfree : ~ In LF (chars (owner ++ "/" ++ repo ++ ".git")%string)).
  { rewrite chars_app. intros Hin. apply in_app_or in Hin as [Hin|Hin];
      [contradiction|].
    simpl in Hin. destruct Hin as [Hin|Hin]; [discriminate|].
    fold (chars (repo ++ ".git")%string) in Hin. rewrite chars_app in Hin.
    apply in_app_or in Hin as [Hin|Hin]; [contradiction|].
    simpl in Hin. repeat (destruct Hin as [Hin|Hin]; [discriminate|]).
    exact Hin. }
  assert (Hg : ~ In LF (chars g)).
  { intros Hin. apply Hfree. rewrite Es.
    rewrite chars_app. apply in_or_app. right.
    change (In LF (chars ("/" ++ (g2 ++ ".git" ++ rest))%string)).
    rewrite chars_app. apply in_or_app. right.
    rewrite Eg, chars_app. apply in_or_app. now left. }
  assert (Hlen : String.length g <= String.length g2).
  { apply (match_any_group_longest (pattern_match [Literal ".git"])
             (g2 ++ ".git" ++ rest) g2 [] g ".git" Egreedy Eg Hg).
    discriminate. }
  assert (Erest : rest = "").
  { apply (f_equal String.length) in Eg.
    rewrite !str_length_app in Eg. simpl in Eg.
    destruct rest; [reflexivity | simpl in Eg; lia]. }
  subst rest.
  apply (str_app_inv_tail _ _ ".git").
  rewrite !str_app_assoc. symmetry. exact Es.
Qed.

(** A project with a git source whose remote is
    [https://github.com/owner/repo.git] gets a [BugProvider] for the GitHub
    project [owner/repo]. *)
Theorem create_provider_for_github_remote (name owner repo : string) :
  ~ In LF (chars owner) -> ~ In LF (chars repo) ->
  create_provider_for_project
    (mkProject name true
               ("https://github.com/" ++ owner ++ "/" ++ repo ++ ".git"))
  = Some (BugProviderObj name (Some (owner ++ "/" ++ repo)%string)).
Proof.
  intros Ho Hr. unfold create_provider_for_project.
  cbn [primary_source_has_fetch remote NAME].
  destruct (github_pattern_match_round_trip owner repo Ho Hr)
    as (g1 & g2 & -> & ->).
  reflexivity.
Qed.

Lemma create_provider_for_github_remote_example :
  create_provider_for_project
    (mkProject "gzip" true "https://github.com/vulder/gzip.git")
  = Some (BugProviderObj "gzip" (Some "vulder/gzip")).
Proof.
  apply (create_provider_for_github_remote "gzip" "vulder" "gzip").
  - simpl. intros H. repeat (destruct H as [H|H]; [discriminate|]). exact H.
  - simpl. intros H. repeat (destruct H as [H|H]; [discriminate|]). exact H.
Defined.

(** What creation gives in general: nothing without a [fetch] source, and
    otherwise a [BugProvider] of the project, never the default provider;
    a GitHub name it carries is not empty, has no line feed, and the remote
    reads the GitHub prefix, that name, [.git] and possibly more. *)
Theorem create_provider_for_project_result (project : Project) :
  (create_provider_for_project project = None <->
   primary_source_has_fetch project = false)
  /\ (forall provider,
         create_provider_for_project project = Some provider ->
         exists github_project_name,
           provider = BugProviderObj (NAME project) github_project_name
           /\ (github_project_name = None <->
               pattern_match GITHUB_URL_PATTERN (remote project) = None)
           /\ (forall n, github_project_name = Some n ->
                 str_truthy n = true
                 /\ ~ In LF (chars n)
                 /\ exists rest,
                     remote project
                     = ("https://github.com/" ++ n ++ ".git" ++ rest)%string)).
Proof.
  unfold create_provider_for_project.
  destruct (primary_source_has_fetch project).
  - destruct (pattern_match GITHUB_URL_PATTERN (remote project))
      as [groups|] eqn:E.
    + apply github_pattern_match_groups in E
        as (g1 & g2 & rest & -> & Es & Hg1 & Hg2 & _).
      split; [split; discriminate|].
      intros provider [= <-]. eexists. split; [reflexivity|].
      split; [split; discriminate|].
      intros n [= <-]. repeat split.
      * destruct g1; reflexivity.
      * rewrite chars_app. intros Hin.
        apply in_app_or in Hin as [Hin|Hin]; [contradiction|].
        simpl in Hin. destruct Hin as [Hin|Hin]; [discriminate|contradiction].
      * exists rest. rewrite Es. rewrite !str_app_assoc. reflexivity.
    + split; [split; discriminate|].
      intros provider [= <-]. exists None. split; [reflexivity|].
      split; [split; reflexivity | discriminate].
  - split; [split; reflexivity|]. discriminate.
Qed.

(** ** More on the commit-message detector *)

(** A message with a line break splits at the first one. *)
Lemma first_line_split (commit_message : string) :
  has_line_break commit_message ->
  exists first rest,
    commit_message = (first ++ String LF rest)%string
    /\ ~ has_line_break first.
Proof.
  unfold has_line_break.
  induction commit_message as [|a m IH]; simpl; intros Hin; [contradiction|].
  destruct (Ascii.eqb_spec a LF) as [->|Hne].
  - exists "", m. split; [reflexivity | intros []].
  - destruct Hin as [Heq|Hin]; [congruence|].
    destruct (IH Hin) as (first & rest & -> & Hn).
    exists (String a first), rest. split; [reflexivity|].
    intros [Heq|Hin']; [congruence | contradiction].
Qed.

(** The detector returns exactly on the messages that have a line break;
    on the others it raises. *)
Theorem is_closing_message_returns_iff (commit_message : string) :
  (returns (bug._is_closing_message commit_message)
   <-> has_line_break commit_message)
  /\ (bug._is_closing_message commit_message = Raise ValueError
      <-> ~ has_line_break commit_message).
Proof.
  unfold bug._is_closing_message, str_index.
  destruct (find_char LF commit_message) as [i|] eqn:E.
  - assert (Hlb : has_line_break commit_message)
      by (apply has_line_break_found; congruence).
    simpl. split; split; try (intros _; exact Hlb).
    + intros _.
      destruct (re_search closing_pattern (slice_to i commit_message));
        eexists; reflexivity.
    + destruct (re_search closing_pattern (slice_to i commit_message));
        discriminate.
    + contradiction.
  - apply find_char_None in E. simpl. split; split.
    + intros [b Hb]. discriminate.
    + contradiction.
    + intros _. exact E.
    + reflexivity.
Qed.

(** On a message with a line break the detector answers from the text
    before the first line break alone, and it answers [True] exactly when
    the word "fix" occurs there, at any place and in any case, the case
    being ignored as Unicode folds it: the letter in the middle may also be
    U+0130 or U+0131. *)
Theorem is_closing_message_fix_in_first_line (commit_message : string) :
  has_line_break commit_message ->
  exists first rest b,
    commit_message = (first ++ String LF rest)%string
    /\ ~ has_line_break first
    /\ bug._is_closing_message commit_message = Ok b
    /\ (b = true <-> fix_occurs first).
Proof.
  intros Hlb.
  destruct (first_line_split commit_message Hlb) as (first & rest & -> & Hn).
  destruct (is_closing_message_first_line first rest Hn) as (b & Hb & Hiff).
  exists first, rest, b. repeat split; try assumption.
  - intros Ht. apply occurs_ci_fix, closing_pattern_is_fix. now apply Hiff.
  - intros Hocc. apply Hiff. now apply closing_pattern_is_fix, occurs_ci_fix.
Qed.

Lemma is_closing_message_fix_in_first_line_example :
  exists first rest b,
    ("Fixes #12" ++ newline ++ "more text")%string
    = (first ++ String LF rest)%string
    /\ ~ has_line_break first
    /\ bug._is_closing_message ("Fixes #12" ++ newline ++ "more text") = Ok b
    /\ (b = true <-> fix_occurs first).
Proof.
  apply (is_closing_message_fix_in_first_line
           ("Fixes #12" ++ newline ++ "more text")).
  apply has_line_break_found. vm_compute. discriminate.
Defined.

(** The detector on first lines that spell the word with U+0130 and with
    U+0131, and on one that has another letter in the middle. *)
Lemma is_closing_message_unicode_examples :
  bug._is_closing_message ("f" ++ capital_I_with_dot ++ "x" ++ newline)
  = Ok true
  /\ bug._is_closing_message ("F" ++ dotless_i ++ "X" ++ newline) = Ok true
  /\ bug._is_closing_message ("f" ++ utf8 [196; 178] ++ "x" ++ newline)
     = Ok false.
Proof. repeat split; vm_compute; reflexivity. Qed.

(** What follows the first line break has no influence on the answer. *)
Theorem is_closing_message_ignores_later_lines (first rest1 rest2 : string) :
  ~ has_line_break first ->
  bug._is_closing_message (first ++ String LF rest1)%string
  = bug._is_closing_message (first ++ String LF rest2)%string.
Proof.
  intros Hn. unfold bug._is_closing_message, str_index.
  rewrite !(find_char_first_line LF first _ Hn). simpl bind.
  now rewrite !slice_to_first_line.
Qed.

Lemma is_closing_message_ignores_later_lines_example :
  bug._is_closing_message ("Unrelated change" ++ newline ++ "fix later")
  = bug._is_closing_message ("Unrelated change" ++ newline ++ "").
Proof.
  apply (is_closing_message_ignores_later_lines
           "Unrelated change" "fix later" "").
  apply (proj1 (find_char_None LF "Unrelated change")). reflexivity.
Defined.

(** ** Equality of bug records *)

Lemma list_eqb_of_map {A K : Type} (key : A -> K)
      (eqb : A -> A -> bool) (l1 l2 : list A) :
  (forall x y, key x = key y -> eqb x y = true) ->
  map key l1 = map key l2 -> list_eqb eqb l1 l2 = true.
Proof.
  intros Hcomplete. revert l2.
  induction l1 as [|x l1 IH]; intros [|y l2]; simpl; try discriminate.
  - reflexivity.
  - intros [= Hxy Hl]. now rewrite (Hcomplete x y Hxy), (IH l2 Hl).
Qed.

Lemma opt_int_eqb_eq (o1 o2 : option Z) : opt_int_eqb o1 o2 = true <-> o1 = o2.
Proof.
  destruct o1 as [a|], o2 as [b|]; simpl; split; try discriminate;
    try reflexivity.
  - intros Hb. apply Z.eqb_eq in Hb. now subst.
  - intros [= ->]. apply Z.eqb_refl.
Qed.

Lemma pygit_eq_fields (p q : PygitBug.t) :
  PygitBug.__eq__ p q = true <->
  hex (PygitBug.fixing_commit p) = hex (PygitBug.fixing_commit q)
  /\ map hex (PygitBug.introducing_commits p)
     = map hex (PygitBug.introducing_commits q)
  /\ PygitBug.issue_id p = PygitBug.issue_id q.
Proof.
  unfold PygitBug.__eq__. rewrite !andb_true_iff, opt_int_eqb_eq.
  unfold commit_eqb at 1. rewrite String.eqb_eq.
  split.
  - intros [[Hf Hi] Hn]. repeat split; try assumption.
    exact (list_eqb_true_map hex commit_eqb _ _ commit_eqb_hex Hi).
  - intros (Hf & Hi & Hn). repeat split; try assumption.
    apply (list_eqb_of_map hex); [|exact Hi].
    intros x y. unfold commit_eqb. apply String.eqb_eq.
Qed.

(** Two pygit bugs are equal exactly when their fixing commits have the
    same id, their introducing commits have the same ids in the same
    order, and their issue ids agree; the commit messages play no part.
    Two raw bugs are equal exactly when all three fields are. *)
Theorem bug_eq_iff (p q : PygitBug.t) (a b : RawBug.t) :
  (PygitBug.__eq__ p q = true <->
   hex (PygitBug.fixing_commit p) = hex (PygitBug.fixing_commit q)
   /\ map hex (PygitBug.introducing_commits p)
      = map hex (PygitBug.introducing_commits q)
   /\ PygitBug.issue_id p = PygitBug.issue_id q)
  /\ (RawBug.__eq__ a b = true <->
      RawBug.fixing_commit a = RawBug.fixing_commit b
      /\ RawBug.introducing_commits a = RawBug.introducing_commits b
      /\ RawBug.issue_id a = RawBug.issue_id b).
Proof.
  split; [apply pygit_eq_fields|].
  rewrite rawbug_eq_fields. split.
  - now intros ->.
  - destruct a, b; simpl. intros (-> & -> & ->). reflexivity.
Qed.

(** On each class [__eq__] is reflexive, symmetric and transitive. *)
Theorem bug_eq_equivalence :
  (forall p, PygitBug.__eq__ p p = true)
  /\ (forall p q, PygitBug.__eq__ p q = PygitBug.__eq__ q p)
  /\ (forall p q r, PygitBug.__eq__ p q = true -> PygitBug.__eq__ q r = true ->
                    PygitBug.__eq__ p r = true)
  /\ (forall a, RawBug.__eq__ a a = true)
  /\ (forall a b, RawBug.__eq__ a b = RawBug.__eq__ b a)
  /\ (forall a b c, RawBug.__eq__ a b = true -> RawBug.__eq__ b c = true ->
                    RawBug.__eq__ a c = true).
Proof.
  assert (Hsym : forall b1 b2 : bool, (b1 = true <-> b2 = true) -> b1 = b2).
  { intros [|] [|] [H1 H2]; try reflexivity;
      [symmetry; now apply H1 | now apply H2]. }
  repeat split.
  - intros p. now apply pygit_eq_fields.
  - intros p q. apply Hsym. rewrite !pygit_eq_fields.
    split; intros (Hf & Hi & Hn); now repeat split.
  - intros p q r Hpq Hqr. apply pygit_eq_fields in Hpq as (F1 & I1 & N1).
    apply pygit_eq_fields in Hqr as (F2 & I2 & N2). apply pygit_eq_fields.
    repeat split; congruence.
  - intros a. now apply rawbug_eq_fields.
  - intros a b. apply Hsym. rewrite !rawbug_eq_fields.
    split; intros ->; reflexivity.
  - intros a b c Hab Hbc. apply rawbug_eq_fields in Hab, Hbc.
    apply rawbug_eq_fields. congruence.
Qed.

(** ** The filter functions *)

(** The issue filter of [find_all_raw_bugs] never raises.  It yields a bug
    exactly for an event that [_has_closed_a_bug] accepts and whose commit
    id is not the empty string; the bug carries that id, the issue's
    number and no introducing commits. *)
Theorem accept_all_issue_rawbugs_iff
        (W : World) (project_name : string) (issue_event : IssueEvent) :
  returns (bug.accept_all_issue_rawbugs W project_name issue_event)
  /\ (forall rawbug,
         bug.accept_all_issue_rawbugs W project_name issue_event
         = Ok (Some rawbug)
         <-> bug._has_closed_a_bug issue_event = true
             /\ exists cid,
                 commit_id issue_event = Some cid /\ cid <> ""
                 /\ rawbug = RawBug.mk cid []
                                       (Some (number (issue issue_event))))
  /\ (commit_id issue_event = Some "" ->
      bug.accept_all_issue_rawbugs W project_name issue_event = Ok None).
Proof.
  unfold bug.accept_all_issue_rawbugs, bug.closing_commit_id,
    bug._search_corresponding_raw_bug.
  destruct (bug._has_closed_a_bug issue_event);
    destruct (commit_id issue_event) as [[|a cid]|]; simpl;
    (split; [eexists; reflexivity|]); (split; [|try discriminate; reflexivity]);
    intros rawbug; split;
    try discriminate;
    try (intros (Hc & _); discriminate);
    try (intros (_ & cid' & [= <-] & Hne & _); congruence);
    try (intros (_ & cid' & Hc & _); discriminate).
  - intros [= <-]. split; [reflexivity|].
    exists (String a cid). repeat split. discriminate.
  - intros (_ & cid' & [= <-] & _ & ->). reflexivity.
Qed.

(** The by-fix issue filters compare differently.  The raw one accepts an
    event whose commit id is the requested string itself; the pygit one
    resolves the event's commit id and accepts when the id of the commit
    found is the requested string. *)
Theorem by_fix_issue_filters
        (W : World) (project_name fixing_commit : string)
        (issue_event : IssueEvent) :
  (forall rawbug,
      bug.accept_issue_rawbug_with_certain_fix
        W project_name fixing_commit issue_event = Ok (Some rawbug)
      <-> bug.closing_commit_id issue_event = Some fixing_commit
          /\ rawbug = RawBug.mk fixing_commit []
                                (Some (number (issue issue_event))))
  /\ (forall pybug,
         bug.accept_issue_pybug_with_certain_fix
           W project_name fixing_commit issue_event = Ok (Some pybug)
         <-> exists cid c,
             bug.closing_commit_id issue_event = Some cid
             /\ lookup (get_local_project_git W project_name) cid = Some c
             /\ hex c = fixing_commit
             /\ pybug = PygitBug.mk c []
                                    (Some (number (issue issue_event)))).
Proof.
  unfold bug.accept_issue_rawbug_with_certain_fix,
    bug.accept_issue_pybug_with_certain_fix,
    bug._search_corresponding_raw_bug, bug._search_corresponding_pygit_bug,
    revparse_single.
  destruct (bug.closing_commit_id issue_event) as [cid|]; simpl.
  - split.
    + intros rawbug. destruct (String.eqb_spec cid fixing_commit) as [->|Hne].
      * split; [intros [= <-]; now split | intros (_ & ->); reflexivity].
      * split; [discriminate | intros ([= E] & _); congruence].
    + intros pybug.
      destruct (lookup (get_local_project_git W project_name) cid)
        as [c|] eqn:El; simpl.
      * destruct (String.eqb_spec (hex c) fixing_commit) as [Eh|Hne].
        -- split.
           ++ intros [= <-]. now exists cid, c.
           ++ intros (cid' & c' & [= <-] & Hl & _ & ->).
              rewrite El in Hl. now injection Hl as <-.
        -- split; [discriminate|].
           intros (cid' & c' & [= <-] & Hl & Hh & _).
           rewrite El in Hl. injection Hl as <-. congruence.
      * split; [discriminate|].
        intros (cid' & c' & [= <-] & Hl & _). rewrite El in Hl. discriminate.
  - split.
    + intros rawbug. split; [discriminate | intros (E & _); discriminate].
    + intros pybug. split; [discriminate|].
      intros (cid' & c' & E & _). discriminate.
Qed.

(** ** When the queries of module [bug] complete *)

Section AddAcceptedUnhashable.

Context {A E : Type}.
Variable eqb : A -> A -> bool.
Variable hash : A -> Exc Z.
Variable f : E -> Exc (option A).
Hypothesis hash_raises : forall x, hash x = Raise TypeError.

(** With an unhashable element type the loop completes exactly when the
    filter function turns every item down, and then the set is as
    before. *)
Lemma add_accepted_unhashable_iff (items : list E) (resulting s : pyset A) :
  add_accepted eqb hash f items resulting = Ok s <->
  s = resulting /\ forall item, In item items -> f item = Ok None.
Proof.
  split.
  - revert resulting.
    induction items as [|item items IH]; simpl; intros resulting Hs.
    + split; [congruence | intros ? []].
    + destruct (f item) as [[b|]|e] eqn:Ef; simpl in Hs.
      * unfold set_add in Hs. rewrite hash_raises in Hs. discriminate.
      * destruct (IH resulting Hs) as [-> Hall]. split; [reflexivity|].
        intros i [<-|Hi]; [exact Ef | now apply Hall].
      * discriminate.
  - intros [-> Hall]. now apply add_accepted_none.
Qed.

(** When the filter function itself never raises, the first item that it
    accepts ends the loop with [TypeError]. *)
Lemma add_accepted_accepts (items : list E) (resulting : pyset A)
      (item : E) (b : A) :
  (forall i, In i items -> returns (f i)) ->
  In item items -> f item = Ok (Some b) ->
  add_accepted eqb hash f items resulting = Raise TypeError.
Proof.
  induction items as [|i items IH]; simpl; intros Hret Hin Hacc;
    [contradiction|].
  destruct (Hret i (or_introl eq_refl)) as [[b'|] Ei]; rewrite Ei; simpl.
  - unfold set_add. now rewrite hash_raises.
  - destruct Hin as [->|Hin]; [congruence|].
    apply IH; [|exact Hin|exact Hacc].
    intros j Hj. apply Hret. now right.
Qed.

End AddAcceptedUnhashable.

Lemma filter_all_raw_bugs_Ok_iff
      (H : Hasher) (W : World) (project_name : string)
      (issue_filter_function : IssueEvent -> Exc (option RawBug.t))
      (commit_filter_function : Commit -> Exc (option RawBug.t))
      (s : pyset RawBug.t) :
  bug._filter_all_raw_bugs H W project_name
                           issue_filter_function commit_filter_function = Ok s
  <-> s = []
      /\ (forall e, In e (_get_all_issue_events W project_name) ->
                    issue_filter_function e = Ok None)
      /\ exists commits,
          history (get_local_project_git W project_name) = Ok commits
          /\ forall c, In c commits -> commit_filter_function c = Ok None.
Proof.
  rewrite filter_all_raw_bugs_steps. split.
  - destruct (add_accepted RawBug.__eq__ (RawBug.__hash__ H)
                issue_filter_function
                (_get_all_issue_events W project_name) []) as [s1|e] eqn:E1;
      simpl; [|discriminate].
    apply add_accepted_unhashable_iff in E1 as [-> He];
      [|apply raw_hash_raises].
    destruct (history (get_local_project_git W project_name))
      as [commits|e]; simpl; [|discriminate].
    intros E2.
    apply add_accepted_unhashable_iff in E2 as [-> Hc];
      [|apply raw_hash_raises].
    repeat split; [exact He|]. now exists commits.
  - intros (-> & He & commits & Hh & Hc).
    rewrite (add_accepted_none _ _ _ _ _ He), Hh. simpl.
    now apply add_accepted_none.
Qed.

Lemma filter_all_pygit_bugs_Ok_iff
      (H : Hasher) (W : World) (project_name : string)
      (issue_filter_function : IssueEvent -> Exc (option PygitBug.t))
      (commit_filter_function : Commit -> Exc (option PygitBug.t))
      (s : pyset PygitBug.t) :
  bug._filter_all_pygit_bugs H W project_name
                             issue_filter_function commit_filter_function
  = Ok s
  <-> s = []
      /\ (forall e, In e (_get_all_issue_events W project_name) ->
                    issue_filter_function e = Ok None)
      /\ exists commits,
          history (get_local_project_git W project_name) = Ok commits
          /\ forall c, In c commits -> commit_filter_function c = Ok None.
Proof.
  rewrite filter_all_pygit_bugs_steps. split.
  - destruct (add_accepted PygitBug.__eq__ (PygitBug.__hash__ H)
                issue_filter_function
                (_get_all_issue_events W project_name) []) as [s1|e] eqn:E1;
      simpl; [|discriminate].
    apply add_accepted_unhashable_iff in E1 as [-> He];
      [|apply pygit_hash_raises].
    destruct (history (get_local_project_git W project_name))
      as [commits|e]; simpl; [|discriminate].
    intros E2.
    apply add_accepted_unhashable_iff in E2 as [-> Hc];
      [|apply pygit_hash_raises].
    repeat split; [exact He|]. now exists commits.
  - intros (-> & He & commits & Hh & Hc).
    rewrite (add_accepted_none _ _ _ _ _ He), Hh. simpl.
    now apply add_accepted_none.
Qed.

(** The filter wrappers complete exactly when the issue filter function
    turns down every issue event, the head of the repository can be read,
    and the commit filter function turns down every commit of the walk
    from it; the set they then return is empty: a bug that a filter
    function accepts cannot be added to the result set. *)
Theorem filter_all_returns_iff
        (H : Hasher) (W : World) (project_name : string)
        (raw_issue_filter : IssueEvent -> Exc (option RawBug.t))
        (raw_commit_filter : Commit -> Exc (option RawBug.t))
        (pygit_issue_filter : IssueEvent -> Exc (option PygitBug.t))
        (pygit_commit_filter : Commit -> Exc (option PygitBug.t))
        (raw_result : pyset RawBug.t) (pygit_result : pyset PygitBug.t) :
  (bug._filter_all_raw_bugs H W project_name raw_issue_filter raw_commit_filter
   = Ok raw_result
   <-> raw_result = []
       /\ (forall e, In e (_get_all_issue_events W project_name) ->
                     raw_issue_filter e = Ok None)
       /\ exists commits,
           history (get_local_project_git W project_name) = Ok commits
           /\ forall c, In c commits -> raw_commit_filter c = Ok None)
  /\ (bug._filter_all_pygit_bugs H W project_name
                                 pygit_issue_filter pygit_commit_filter
      = Ok pygit_result
      <-> pygit_result = []
          /\ (forall e, In e (_get_all_issue_events W project_name) ->
                        pygit_issue_filter e = Ok None)
          /\ exists commits,
              history (get_local_project_git W project_name) = Ok commits
              /\ forall c, In c commits -> pygit_commit_filter c = Ok None).
Proof.
  split; [apply filter_all_raw_bugs_Ok_iff | apply filter_all_pygit_bugs_Ok_iff].
Qed.

(** On a repository without commits the wrappers raise [GitError], even
    when there is nothing for the filter functions to turn down. *)
Lemma filter_all_on_empty_repository :
  bug._filter_all_raw_bugs sample_hasher empty_world "proj"
                           (fun _ => Ok None) (fun _ => Ok None)
  = Raise GitError
  /\ bug._filter_all_pygit_bugs sample_hasher empty_world "proj"
                                (fun _ => Ok None) (fun _ => Ok None)
     = Raise GitError.
Proof. split; reflexivity. Qed.

(** The guard of the issue filter functions lets an event through exactly
    when the detector accepts it and its commit id is not empty. *)
Lemma closing_commit_id_Some (issue_event : IssueEvent) (cid : string) :
  bug.closing_commit_id issue_event = Some cid <->
  bug._has_closed_a_bug issue_event = true
  /\ commit_id issue_event = Some cid /\ cid <> "".
Proof.
  unfold bug.closing_commit_id.
  destruct (bug._has_closed_a_bug issue_event);
    destruct (commit_id issue_event) as [[|a c]|]; simpl; split;
    try discriminate;
    try (intros (Hc & _); discriminate);
    try (intros (_ & Hc & _); discriminate).
  - intros (_ & [= <-] & Hne). congruence.
  - intros [= <-]. repeat split. discriminate.
  - intros (_ & [= <-] & _). reflexivity.
Qed.

Lemma closing_commit_id_None (issue_event : IssueEvent) :
  bug.closing_commit_id issue_event = None <->
  bug._has_closed_a_bug issue_event = false
  \/ commit_id issue_event = Some "".
Proof.
  unfold bug.closing_commit_id.
  destruct (bug._has_closed_a_bug issue_event) eqn:Eh;
    destruct (commit_id issue_event) as [[|a c]|] eqn:Ec; simpl; split;
    try discriminate; auto;
    try (intros [Hf|Hf]; discriminate).
  exfalso. unfold bug._has_closed_a_bug in Eh. rewrite Ec in Eh.
  now rewrite orb_true_r in Eh.
Qed.

Lemma accept_all_issue_rawbugs_None (W : World) (project_name : string)
      (issue_event : IssueEvent) :
  bug.accept_all_issue_rawbugs W project_name issue_event = Ok None <->
  bug.closing_commit_id issue_event = None.
Proof.
  unfold bug.accept_all_issue_rawbugs.
  destruct (bug.closing_commit_id issue_event); simpl;
    split; (discriminate || reflexivity).
Qed.

Lemma accept_all_issue_pybugs_None (W : World) (project_name : string)
      (issue_event : IssueEvent) :
  bug.accept_all_issue_pybugs W project_name issue_event = Ok None <->
  bug.closing_commit_id issue_event = None.
Proof.
  unfold bug.accept_all_issue_pybugs.
  destruct (bug.closing_commit_id issue_event) as [cid|];
    [|split; reflexivity].
  destruct (bug._search_corresponding_pygit_bug _ _ _); simpl;
    split; discriminate.
Qed.

Lemma accept_all_commit_rawbugs_None (W : World) (project_name : string)
      (commit : Commit) :
  bug.accept_all_commit_rawbugs W project_name commit = Ok None <->
  bug._is_closing_message (message commit) = Ok false.
Proof.
  unfold bug.accept_all_commit_rawbugs.
  destruct (bug._is_closing_message (message commit)) as [[|]|e]; simpl;
    split; (discriminate || reflexivity).
Qed.

Lemma accept_all_commit_pybugs_None (W : World) (project_name : string)
      (commit : Commit) :
  bug.accept_all_commit_pybugs W project_name commit = Ok None <->
  bug._is_closing_message (message commit) = Ok false.
Proof.
  unfold bug.accept_all_commit_pybugs.
  destruct (bug._is_closing_message (message commit)) as [[|]|e]; simpl;
    try (split; (discriminate || reflexivity)).
  destruct (bug._search_corresponding_pygit_bug _ _ _); simpl;
    split; discriminate.
Qed.

(** [find_all_raw_bugs] and [find_all_pygit_bugs] complete on the same
    projects: those in which the detectors find no bug at all and the
    history can be walked, that is, no issue event is a bug-closing one with
    a non-empty commit id, the head of the repository can be read, and the
    message detector answers [False] on every commit of the history.  The
    set they return is then empty. *)
Theorem find_all_returns_iff
        (H : Hasher) (W : World) (project_name : string)
        (raw_result : pyset RawBug.t) (pygit_result : pyset PygitBug.t) :
  (bug.find_all_raw_bugs H W project_name = Ok raw_result
   <-> raw_result = []
       /\ (forall e, In e (_get_all_issue_events W project_name) ->
                     bug._has_closed_a_bug e = false \/ commit_id e = Some "")
       /\ exists commits,
           history (get_local_project_git W project_name) = Ok commits
           /\ forall c, In c commits ->
                        bug._is_closing_message (message c) = Ok false)
  /\ (bug.find_all_pygit_bugs H W project_name = Ok pygit_result
      <-> pygit_result = []
          /\ (forall e, In e (_get_all_issue_events W project_name) ->
                        bug._has_closed_a_bug e = false
                        \/ commit_id e = Some "")
          /\ exists commits,
              history (get_local_project_git W project_name) = Ok commits
              /\ forall c, In c commits ->
                           bug._is_closing_message (message c) = Ok false).
Proof.
  split.
  - unfold bug.find_all_raw_bugs. rewrite filter_all_raw_bugs_Ok_iff.
    split; intros (-> & He & commits & Hh & Hc); (split; [reflexivity|]);
      (split; [|exists commits; split; [exact Hh|]]).
    + intros e Hin. apply closing_commit_id_None.
      apply (accept_all_issue_rawbugs_None W project_name). now apply He.
    + intros c Hin.
      apply (accept_all_commit_rawbugs_None W project_name). now apply Hc.
    + intros e Hin. apply accept_all_issue_rawbugs_None.
      apply closing_commit_id_None. now apply He.
    + intros c Hin. apply accept_all_commit_rawbugs_None. now apply Hc.
  - unfold bug.find_all_pygit_bugs. rewrite filter_all_pygit_bugs_Ok_iff.
    split; intros (-> & He & commits & Hh & Hc); (split; [reflexivity|]);
      (split; [|exists commits; split; [exact Hh|]]).
    + intros e Hin. apply closing_commit_id_None.
      apply (accept_all_issue_pybugs_None W project_name). now apply He.
    + intros c Hin.
      apply (accept_all_commit_pybugs_None W project_name). now apply Hc.
    + intros e Hin. apply accept_all_issue_pybugs_None.
      apply closing_commit_id_None. now apply He.
    + intros c Hin. apply accept_all_commit_pybugs_None. now apply Hc.
Qed.

(** ** Queries by fixing commit *)

(** A fixing commit that neither the tracker nor the history knows gives
    the empty set, provided the repository has a head commit and every
    commit message of the history has a line break. *)
Theorem find_raw_bug_by_fix_unknown
        (H : Hasher) (W : World) (project_name fixing_commit : string)
        (commits : list Commit) :
  history (get_local_project_git W project_name) = Ok commits ->
  (forall c, In c commits -> has_line_break (message c)) ->
  (forall e, In e (_get_all_issue_events W project_name) ->
             commit_id e <> Some fixing_commit) ->
  (forall c, In c commits -> hex c <> fixing_commit) ->
  bug.find_raw_bug_by_fix H W project_name fixing_commit = Ok [].
Proof.
  intros Hhist Hmsg Hev Hwalk.
  unfold bug.find_raw_bug_by_fix. apply filter_all_raw_bugs_Ok_iff.
  split; [reflexivity|]. split.
  - intros e He. unfold bug.accept_issue_rawbug_with_certain_fix.
    destruct (bug.closing_commit_id e) as [cid|] eqn:Ec; [|reflexivity].
    apply closing_commit_id_Some in Ec as (_ & Ec & _).
    unfold bug._search_corresponding_raw_bug. simpl.
    destruct (String.eqb_spec cid fixing_commit) as [->|Hne]; [|reflexivity].
    exfalso. now apply (Hev e He).
  - exists commits. split; [exact Hhist|].
    intros c Hc. unfold bug.accept_commit_rawbug_with_certain_fix.
    destruct (is_closing_message_returns (message c) (Hmsg c Hc)) as [b ->].
    destruct b; [|reflexivity].
    unfold bug._search_corresponding_raw_bug. simpl.
    destruct (String.eqb_spec (hex c) fixing_commit) as [Eh|Hne];
      [|reflexivity].
    exfalso. now apply (Hwalk c Hc).
Qed.

Lemma find_raw_bug_by_fix_unknown_example :
  bug.find_raw_bug_by_fix sample_hasher fix_world "proj" "zzz999" = Ok [].
Proof.
  apply (find_raw_bug_by_fix_unknown
           sample_hasher fix_world "proj" "zzz999" [fix_commit]).
  - reflexivity.
  - intros c [<-|[]]. apply has_line_break_found. vm_compute. discriminate.
  - intros e [<-|[]]. vm_compute. discriminate.
  - intros c [<-|[]]. vm_compute. discriminate.
Defined.

(** A fixing commit that a bug-closing event of the tracker names makes the
    raw query raise [TypeError]: the bug found for it cannot be added to
    the result set. *)
Theorem find_raw_bug_by_fix_known
        (H : Hasher) (W : World) (project_name fixing_commit : string)
        (issue_event : IssueEvent) :
  In issue_event (_get_all_issue_events W project_name) ->
  bug._has_closed_a_bug issue_event = true ->
  commit_id issue_event = Some fixing_commit ->
  fixing_commit <> "" ->
  bug.find_raw_bug_by_fix H W project_name fixing_commit = Raise TypeError.
Proof.
  intros Hin Hclosed Hcid Hne.
  unfold bug.find_raw_bug_by_fix, bug._filter_all_raw_bugs.
  rewrite (add_accepted_accepts RawBug.__eq__ (RawBug.__hash__ H)
             (bug.accept_issue_rawbug_with_certain_fix
                W project_name fixing_commit)
             (raw_hash_raises H)
             (_get_all_issue_events W project_name) [] issue_event
             (RawBug.mk fixing_commit []
                        (Some (number (issue issue_event))))).
  - reflexivity.
  - intros e _. unfold bug.accept_issue_rawbug_with_certain_fix,
      bug._search_corresponding_raw_bug.
    destruct (bug.closing_commit_id e) as [cid|]; simpl;
      [|eexists; reflexivity].
    destruct (String.eqb cid fixing_commit); eexists; reflexivity.
  - exact Hin.
  - unfold bug.accept_issue_rawbug_with_certain_fix,
      bug._search_corresponding_raw_bug.
    rewrite (proj2 (closing_commit_id_Some issue_event fixing_commit)
                   (conj Hclosed (conj Hcid Hne))).
    simpl. now rewrite String.eqb_refl.
Qed.

Lemma find_raw_bug_by_fix_known_example :
  bug.find_raw_bug_by_fix sample_hasher fix_world "proj" "abc123"
  = Raise TypeError.
Proof.
  apply (find_raw_bug_by_fix_known
           sample_hasher fix_world "proj" "abc123" fix_event).
  - left. reflexivity.
  - reflexivity.
  - reflexivity.
  - discriminate.
Defined.

(** ** The query methods of [BugProvider] *)

Lemma query_body_returns_iff {B : Type} (eqb : B -> B -> bool)
      (project_NAME : string) (github_project_name : option string)
      (issue_query commit_query : string -> Exc (pyset B)) :
  returns (BugProvider.query_body eqb project_NAME github_project_name
                                  issue_query commit_query)
  <-> helpers_return project_NAME github_project_name
                     issue_query commit_query.
Proof.
  unfold BugProvider.query_body, BugProvider.union_stmt, helpers_return,
    returns.
  destruct github_project_name as [[|a gh]|]; simpl.
  - destruct (commit_query project_NAME) as [s|e]; simpl; split.
    + intros _. split; [intros gh [= <-] Hne; congruence | now exists s].
    + intros _. eexists; reflexivity.
    + intros [x Hx]; discriminate.
    + intros [_ [x Hx]]; discriminate.
  - destruct (issue_query (String a gh)) as [si|ei] eqn:Ei; simpl.
    + destruct (commit_query project_NAME) as [s|e]; simpl; split.
      * intros _. split; [|now exists s].
        intros gh' [= <-] _. rewrite Ei. now exists si.
      * intros _. eexists; reflexivity.
      * intros [x Hx]; discriminate.
      * intros [_ [x Hx]]; discriminate.
    + split.
      * intros [x Hx]; discriminate.
      * intros [Hi _]. destruct (Hi (String a gh) eq_refl) as [x Hx];
          [discriminate|]. rewrite Ei in Hx. discriminate.
  - destruct (commit_query project_NAME) as [s|e]; simpl; split.
    + intros _. split; [discriminate | now exists s].
    + intros _. eexists; reflexivity.
    + intros [x Hx]; discriminate.
    + intros [_ [x Hx]]; discriminate.
Qed.

(** Each of the six query methods of [BugProvider] returns the empty set
    whenever it returns: with or without a GitHub name, for the find-all,
    the by-fix and the by-introduction queries alike, the unions are
    computed and dropped. *)
Theorem provider_queries_return_empty
        (M : BugModule) (project_NAME : string)
        (github_project_name : option string) (commit : string) :
  (forall s, BugProvider.find_all_pygit_bugs M project_NAME github_project_name
             = Ok s -> s = [])
  /\ (forall s, BugProvider.find_all_raw_bugs M project_NAME github_project_name
                = Ok s -> s = [])
  /\ (forall s, BugProvider.find_pygit_bug_by_fix
                  M project_NAME github_project_name commit = Ok s -> s = [])
  /\ (forall s, BugProvider.find_raw_bug_by_fix
                  M project_NAME github_project_name commit = Ok s -> s = [])
  /\ (forall s, BugProvider.find_pygit_bug_by_introduction
                  M project_NAME github_project_name commit = Ok s -> s = [])
  /\ (forall s, BugProvider.find_raw_bug_by_introduction
                  M project_NAME github_project_name commit = Ok s -> s = []).
Proof.
  repeat split; intros s; apply query_body_Ok.
Qed.

(** A query method of [BugProvider] returns exactly when the calls it makes
    into module [bug] return; nothing is caught.  The issue query is made
    only for a GitHub name that is present and not empty, so without one
    the tracker has no part in the outcome. *)
Theorem provider_queries_return_iff
        (M : BugModule) (project_NAME : string)
        (github_project_name : option string) (commit : string) :
  (returns (BugProvider.find_all_pygit_bugs M project_NAME github_project_name)
   <-> helpers_return project_NAME github_project_name
         (find_all_issue_pygit_bugs M) (find_all_commit_message_pygit_bugs M))
  /\ (returns (BugProvider.find_all_raw_bugs
                 M project_NAME github_project_name)
      <-> helpers_return project_NAME github_project_name
            (find_all_issue_raw_bugs M) (find_all_commit_message_raw_bugs M))
  /\ (returns (BugProvider.find_pygit_bug_by_fix
                 M project_NAME github_project_name commit)
      <-> helpers_return project_NAME github_project_name
            (fun gh => find_issue_pygit_bugs_by_fix M gh commit)
            (fun nm => find_commit_message_pygit_bugs_by_fix M nm commit))
  /\ (returns (BugProvider.find_raw_bug_by_fix
                 M project_NAME github_project_name commit)
      <-> helpers_return project_NAME github_project_name
            (fun gh => find_issue_raw_bugs_by_fix M gh commit)
            (fun nm => find_commit_message_raw_bugs_by_fix M nm commit))
  /\ (returns (BugProvider.find_pygit_bug_by_introduction
                 M project_NAME github_project_name commit)
      <-> helpers_return project_NAME github_project_name
            (fun gh => find_issue_pygit_bugs_by_introduction M gh commit)
            (fun nm =>
               find_commit_message_pygit_bugs_by_introduction M nm commit))
  /\ (returns (BugProvider.find_raw_bug_by_introduction
                 M project_NAME github_project_name commit)
      <-> helpers_return project_NAME github_project_name
            (fun gh => find_issue_raw_bugs_by_introduction M gh commit)
            (fun nm =>
               find_commit_message_raw_bugs_by_introduction M nm commit)).
Proof.
  repeat (split; [apply query_body_returns_iff|]).
  apply query_body_returns_iff.
Qed.

(** ** The history filter of [find_all_raw_bugs] *)

(** What a commit of the history contributes: a commit whose message has
    no line break makes the filter raise [ValueError]; otherwise the commit
    gives a bug exactly when the word "fix" occurs in the first line of its
    message, case being ignored as Unicode folds it, and that bug carries
    the commit's id, no introducing commits and no issue id. *)
Theorem accept_all_commit_rawbugs_cases
        (W : World) (project_name : string) (commit : Commit) :
  (~ has_line_break (message commit) ->
   bug.accept_all_commit_rawbugs W project_name commit = Raise ValueError)
  /\ (forall first rest,
         message commit = (first ++ String LF rest)%string ->
         ~ has_line_break first ->
         (fix_occurs first ->
          bug.accept_all_commit_rawbugs W project_name commit
          = Ok (Some (RawBug.mk (hex commit) [] None)))
         /\ (~ fix_occurs first ->
             bug.accept_all_commit_rawbugs W project_name commit = Ok None)).
Proof.
  unfold bug.accept_all_commit_rawbugs. split.
  - intros Hn. unfold bug._is_closing_message, str_index.
    apply find_char_None in Hn. now rewrite Hn.
  - intros first rest -> Hn.
    destruct (is_closing_message_first_line first rest Hn) as (b & -> & Hiff).
    simpl. split.
    + intros Hocc. apply occurs_ci_fix, closing_pattern_is_fix in Hocc.
      apply Hiff in Hocc. now subst b.
    + intros Hno. destruct b; [|reflexivity].
      exfalso. apply Hno. apply occurs_ci_fix, closing_pattern_is_fix.
      now apply Hiff.
Qed.
